(** * report-sim: the simulation service and its two callers

    A shallow embedding of [services/geminiService.ts] (the retrying
    transport, the era context, the mode instructions, [analyzeArticle] and
    [generateReplyReaction]), of the publish handler of [App.tsx] and of the
    reply handler of [SimulationDashboard.tsx], with the properties of the
    design document checked against them.

    Asynchronous code is written in a small monad [Promise]: a computation
    reads and extends the record of what the event loop has done so far
    (requests issued, timers awaited) and settles either rejected ([inl],
    a thrown value) or fulfilled ([inr]). *)

From stdpp Require Import base tactics option list strings pretty.
From Stdlib Require Import ZArith Lia.

Set Default Proof Using "Type".

(** ** JavaScript values *)

Module Js.

(** The double-quote character, for template literals that contain it. *)
Definition dq : string := String (Ascii.ascii_of_nat 34) EmptyString.

(** A [number] as the code uses it for years: an integer or [NaN]. *)
Inductive number := NaN | Num (z : Z).

(** [`${n}`] *)
Definition toString (n : number) : string :=
  match n with NaN => "NaN" | Num z => pretty z end.

(** [a < b] and [a > b]: every comparison with [NaN] is [false]. *)
Definition lt (a b : number) : bool :=
  match a, b with Num x, Num y => (x <? y)%Z | _, _ => false end.
Definition gt (a b : number) : bool := lt b a.
Definition ge (a b : number) : bool :=
  match a, b with Num x, Num y => (y <=? x)%Z | _, _ => false end.

(** Truthiness of an optional boolean flag and of an optional string. *)
Definition truthy (flag : option bool) : bool := default false flag.
Definition nonempty (s : string) : bool :=
  match s with EmptyString => false | String _ _ => true end.
Definition truthy_str (s : option string) : bool :=
  match s with Some s => nonempty s | None => false end.

(** [a || b] on strings. *)
Definition or_str (a b : string) : string := if nonempty a then a else b.

(** [l.push(x)] *)
Definition push {A} (l : list A) (x : A) : list A := l ++ [x].

(** The line feed, and [l.join(sep)]. *)
Definition nl : string := String (Ascii.ascii_of_nat 10) EmptyString.
Definition join (l : list string) (sep : string) : string := String.concat sep l.

(** [s.includes(sub)] *)
Fixpoint includes (s sub : string) : bool :=
  String.prefix sub s ||
  match s with
  | EmptyString => false
  | String _ s' => includes s' sub
  end.

(** What [catch (error: any)] inspects of a thrown value: the numeric
    [status] and [code] and the textual [message], each possibly absent. *)
Record Error := mkError {
  status : option Z;
  code : option Z;
  message : option string
}.

(** [new Error(msg)] *)
Definition newError (msg : string) : Error :=
  {| status := None; code := None; message := Some msg |}.

End Js.

(** ** Data model ([types.ts]) *)

Module Article.

Inductive ArticleCategory :=
| POLITICS | ECONOMY | SOCIETY | ENTERTAINMENT | TECH | SPORTS | OPINION.

(** The string value of each member of the enum. *)
Definition categoryText (c : ArticleCategory) : string :=
  match c with
  | POLITICS => "정치"
  | ECONOMY => "경제"
  | SOCIETY => "사회"
  | ENTERTAINMENT => "연예"
  | TECH => "IT/과학"
  | SPORTS => "스포츠"
  | OPINION => "오피니언"
  end.

Record t := mk {
  title : string;
  category : ArticleCategory;
  content : string;
  author : string;
  timestamp : string;
  isFakeNews : option bool;
  isCrazyMode : option bool;
  isEmergencyMode : option bool;
  isTimeMachineMode : option bool;
  targetYear : option string;
  previousArticleContext : option string
}.

End Article.

Module Reply.
Record t := mk {
  username : string;
  content : string;
  likes : Z
}.
End Reply.

Inductive Sentiment := positive | negative | neutral.

Module Comment.
Record t := mk {
  username : string;
  content : string;
  likes : Z;
  sentiment : Sentiment;
  platform : string;
  replies : list Reply.t
}.
End Comment.

Record MediaCoverage := {
  mediaName : string;
  headline : string
}.

Record StockPoint := {
  time : string;
  value : Z
}.

Record StockSector := {
  name : string;
  change : Z
}.

Record StockAnalysis := {
  indexName : string;
  startValue : Z;
  endValue : Z;
  graphData : list StockPoint;
  affectedSectors : list StockSector;
  marketCommentary : string
}.

Record ExtraIndices := {
  nationalAnxiety : Z;
  economicStability : Z;
  angerIndex : Z
}.

Record SimulationResult := {
  viralityScore : Z;
  reliabilityScore : Z;
  controversyScore : Z;
  publicSentiment : string;
  editorFeedback : string;
  impactSummary : string;
  comments : list Comment.t;
  otherMediaCoverage : list MediaCoverage;
  viewCountEstimate : Z;
  shareCount : Z;
  stockAnalysis : option (list StockAnalysis);
  extraIndices : option ExtraIndices
}.

(** ** The state of [App.tsx] *)

Module App.

Inductive AppState := EDITOR | SIMULATING | RESULT.

Record t := mk {
  appState : AppState;
  article : Article.t;
  result : option SimulationResult;
  history : list (Article.t * SimulationResult);
  alerts : list string          (* what [alert] has shown, oldest first *)
}.

Definition setAppState (s : AppState) (app : t) : t :=
  mk s (article app) (result app) (history app) (alerts app).
Definition setResult (r : option SimulationResult) (app : t) : t :=
  mk (appState app) (article app) r (history app) (alerts app).
Definition setHistory (h : list (Article.t * SimulationResult)) (app : t) : t :=
  mk (appState app) (article app) (result app) h (alerts app).
Definition alert (msg : string) (app : t) : t :=
  mk (appState app) (article app) (result app) (history app) (alerts app ++ [msg]).

End App.

(** ** The generation service, as the transport sees it *)

Inductive ResponseSchema := SimulationResultSchema | ReplyArraySchema.

(** The argument of [ai.models.generateContent]. *)
Record GenerateContentParameters := {
  model : string;
  contents : string;
  systemInstruction : option string;
  responseSchema : ResponseSchema
}.

(** [response.text] is all the callers read of a response. *)
Record GenerateContentResponse := {
  text : option string
}.

(** ** The event loop *)

Inductive Event :=
| Request            (* one run of the unit of work *)
| Sleep (ms : Z).    (* [await new Promise(resolve => setTimeout(resolve, ms))] *)

Record World := mkWorld {
  attempts : nat;        (* runs of the unit of work so far *)
  log : list Event       (* everything awaited so far, oldest first *)
}.

Definition fresh : World := {| attempts := 0; log := [] |}.

Definition Promise (A : Type) : Type := World → (Js.Error + A) * World.

Definition resolve {A} (a : A) : Promise A := λ w, (inr a, w).
Definition throw {A} (e : Js.Error) : Promise A := λ w, (inl e, w).

(** A value that either returns or throws, lifted. *)
Definition settle {A} (o : Js.Error + A) : Promise A := λ w, (o, w).

Definition await {A B} (p : Promise A) (k : A → Promise B) : Promise B :=
  λ w, match p w with
       | (inr a, w') => k a w'
       | (inl e, w') => (inl e, w')
       end.

(** [try { p } catch (error) { handler }] *)
Definition try_catch {A} (p : Promise A) (handler : Js.Error → Promise A) : Promise A :=
  λ w, match p w with
       | (inr a, w') => (inr a, w')
       | (inl e, w') => handler e w'
       end.

Notation "'let!' x ':=' p 'in' k" := (await p (λ x, k))
  (at level 10, x binder, p at level 100, k at level 200, only parsing).

Definition afterSleep (delay : Z) (w : World) : World :=
  {| attempts := attempts w; log := log w ++ [Sleep delay] |}.
Definition afterRequest (w : World) : World :=
  {| attempts := S (attempts w); log := log w ++ [Request] |}.

Definition setTimeout (delay : Z) : Promise unit :=
  λ w, (inr tt, afterSleep delay w).

(** A unit of work that settles as [outs n] when [n] runs have been made
    before it. *)
Definition scripted {T} (outs : nat → Js.Error + T) : Promise T :=
  λ w, (outs (attempts w), afterRequest w).

(** ** Retrying transport *)

(** [error?.status === 429 || error?.code === 429 || error?.message?.includes('429')] *)
Definition isRateLimit (error : Js.Error) : bool :=
  bool_decide (Js.status error = Some 429%Z)
  || bool_decide (Js.code error = Some 429%Z)
  || match Js.message error with
     | Some m => Js.includes m "429"
     | None => false
     end.

(** [retries = 3, delay = 2000]. The function is private to the module
    and both callers use the defaults, so [retries] is a natural number;
    [console.warn] and [console.error] write to the console only and are
    left out throughout. *)
Definition default_retries : nat := 3.
Definition default_delay : Z := 2000.

Fixpoint retryRequest {T} (requestFn : Promise T) (retries : nat) (delay : Z) : Promise T :=
  try_catch requestFn (λ error,
    match retries with
    | S retries' =>
        if isRateLimit error then
          let! _ := setTimeout delay in
          retryRequest requestFn retries' (delay * 2)
        else throw error
    | O => throw error
    end).

(** ** Era context: the template literals *)

Definition era_print (targetYear : Js.number) : string :=
  Js.toString targetYear +:+ "년도입니다. 인터넷이 없으므로 신문 투고, 라디오 사연, 대자보 등의 말투(하오체, 읍니다 등)를 사용하세요.".

Definition era_pc (targetYear : Js.number) : string :=
  Js.toString targetYear +:+ "년도 PC통신 시대(하이텔, 천리안) 말투(~셈, ~임, 방가)를 사용하세요.".

Definition era_cyworld (targetYear : Js.number) : string :=
  Js.toString targetYear +:+ "년도 싸이월드/초기 인터넷 감성(이모티콘, 펌킨족 등)을 반영하세요.".

Definition era_future (targetYear : Js.number) : string :=
  Js.toString targetYear +:+ "년도 미래 시대입니다.".

Definition era_year (targetYear : Js.number) : string :=
  Js.toString targetYear +:+ "년도의 시대상을 반영하세요.".

Definition era_now : string :=
  "현대(2024년)의 인터넷 댓글 말투를 사용하세요.".

Definition eraFull_print (targetYear : Js.number) : string :=
  "
        **[시대 설정: " +:+ Js.toString targetYear +:+ "년]**
        - **인터넷이 없거나 매우 제한적입니다.**
        - 'SNS'나 '온라인 댓글' 대신 **'신문 독자 투고', '라디오 사연', '다방에서의 대화', '대자보'** 형식을 'comments' 배열에 담아주세요.
        - 말투는 " +:+ Js.toString targetYear +:+ "년도의 시대상을 반영한 고풍스럽거나 투박한 말투를 사용하세요. (예: " +:+ Js.dq +:+ "~읍니다" +:+ Js.dq +:+ ", " +:+ Js.dq +:+ "~하오" +:+ Js.dq +:+ ")
        - 플랫폼(platform) 필드 예시: '조선일보 독자투고', '라디오 엽서', '서울 다방', '대학가 대자보'.
        - **타 언론사 보도**: 당시 존재했던 신문사/방송사(동아일보, 경향신문, KBS, MBC 등)의 진지한 헤드라인 스타일.
      ".

Definition eraFull_pc (targetYear : Js.number) : string :=
  "
        **[시대 설정: " +:+ Js.toString targetYear +:+ "년]**
        - **PC통신 시대입니다.** (하이텔, 천리안, 나우누리)
        - 파란 화면의 채팅방 감성, " +:+ Js.dq +:+ "~셈" +:+ Js.dq +:+ ", " +:+ Js.dq +:+ "~임" +:+ Js.dq +:+ ", " +:+ Js.dq +:+ "방가방가" +:+ Js.dq +:+ " 등의 초기 통신 언어를 적극 반영하세요.
        - 플랫폼(platform) 필드 예시: '하이텔 광장', '천리안 게시판', '나우누리 유머란', 'PC방'.
        - **타 언론사 보도**: 90년대 신문/방송 스타일 + 스포츠신문(스포츠서울 등)의 자극적인 헤드라인.
      ".

Definition eraFull_cyworld (targetYear : Js.number) : string :=
  "
        **[시대 설정: " +:+ Js.toString targetYear +:+ "년]**
        - **싸이월드, 버디버디, 다음 카페 전성기입니다.**
        - " +:+ Js.dq +:+ "퍼가요~♡" +:+ Js.dq +:+ ", " +:+ Js.dq +:+ "일촌평" +:+ Js.dq +:+ ", 오글거리는 감성 글, 2000년대 초반 이모티콘((-_-), OTL)을 사용하세요.
        - 스마트폰은 아직 대중화되지 않았습니다.
        - 플랫폼(platform) 필드 예시: '싸이월드 미니홈피', '다음 카페', '네이버 붐', '버디버디 상태메시지'.
        - **타 언론사 보도**: 인터넷 뉴스 태동기. '딴지일보', '오마이뉴스' 등 대안 언론의 등장 반영.
      ".

Definition eraFull_future (targetYear : Js.number) : string :=
  "
        **[시대 설정: " +:+ Js.toString targetYear +:+ "년 (미래)]**
        - **미래 기술 시대입니다.**
        - 홀로그램, 뉴럴 링크, 화성 거주민 등 미래적 요소를 반영하세요.
        - 플랫폼(platform) 필드 예시: '뉴럴넷 링크', '화성 식민지 게시판', 'AI 통합 네트워크', '가상현실 로비'.
        - **타 언론사 보도**: 'AI 뉴스 봇', '화성 일보', '갤럭시 네트워크 뉴스' 등 미래지향적 매체명.
      ".

Definition eraFull_year (targetYear : Js.number) : string :=
  "
        **[시대 설정: " +:+ Js.toString targetYear +:+ "년]**
        - 해당 연도의 실제 기술 수준과 유행하는 SNS 플랫폼을 반영하되, 아래의 분류 기준(SNS 통합, 커뮤니티 세분화)을 따르세요.
        - **타 언론사 보도**: 현대의 다양한 매체(종편, 인터넷 신문, 유튜브 렉카 등)를 반영하세요.
      ".

Definition eraFull_now : string :=
  "
        **[시대 설정: 현재]**
        - 타 언론사 보도 생성 시: 메이저 언론사, 인터넷 언론사, 경제지, 또는 유튜브 '사이버 렉카' 스타일의 자극적인 썸네일 제목 등을 다양하게 포함하세요.
    ".

Definition mode_emergency : string :=
  "
      **[모드: 국가 비상사태/언론 독점]**
      - 국민들은 정보를 얻을 수 있는 유일한 창구인 이 기사에 필사적입니다.
      - " +:+ Js.dq +:+ "다른 뉴스는 다 끊겼어" +:+ Js.dq +:+ ", " +:+ Js.dq +:+ "살려주세요" +:+ Js.dq +:+ " 등의 절박한 반응이 주를 이룹니다.
      - **타 언론사 보도**: 비어있거나 '신호 없음', '송출 중단' 등으로 표기.
      - **금융 시장**: 대폭락, 거래 정지, 또는 화폐 가치 급락(환율 폭등)을 시뮬레이션하세요.
    ".

Definition mode_crazy : string :=
  "
      **[모드: 미친 기자]**
      - 대중은 기자를 '완전히 미친 사람', '정신 나간 사람'으로 취급합니다.
      - **금융 시장**: 기이한 테마주(예: 알루미늄 호일, 정신병원 관련주)가 급등락하거나, 밈 코인(Meme Coin)이 폭등하는 등 비이성적 흐름.
    ".

Definition mode_fakeNews : string :=
  "
      **[모드: 가짜 뉴스/선동]**
      - 팩트 여부와 관계없이 선동과 음모론 확산에 초점을 맞춥니다.
      - **금융 시장**: 특정 작전주 띄우기나 공포 조성을 통한 투매 유도.
    ".

Definition mode_normal : string :=
  "
      **[일반 모드]**
      - 기사의 논조와 품질에 따른 현실적인 반응을 보여주세요.
      - **금융 시장**: 기사 내용과 가장 연관성 높은 지표가 합리적으로 움직입니다.
    ".

(** ** The prompts *)

Definition previousContext_text (previousArticleContext : string) : string :=
  "
    **[이전 기사 맥락 있음]**
    이 기사는 후속 보도입니다: " +:+ previousArticleContext +:+ "
  ".

Definition prompt_text (eraContextFull previousContext : string) (article : Article.t) (modeInstructions : list string) : string :=
  "
    당신은 '기자 시뮬레이터' 게임의 엔진입니다. 
    사용자가 작성한 기사 내용을 분석하여 대중의 반응과 경제적 파장을 시뮬레이션하세요.
    
    " +:+ eraContextFull +:+ "
    " +:+ previousContext +:+ "

    기사 제목: " +:+ Article.title article +:+ "
    카테고리: " +:+ Article.categoryText (Article.category article) +:+ "
    내용: " +:+ Article.content article +:+ "
    작성자: " +:+ Article.author article +:+ "

    <활성화된 모드 지시사항>
    " +:+ Js.join modeInstructions Js.nl +:+ "
    </활성화된 모드 지시사항>

    요청 사항:
    1. **댓글 (Comments) - 다양성 강화 (20개 이상)**:
       - 플랫폼별 특징(SNS, 여초, 남초, 익명, 포털)을 반영하여 **최소 20개 이상의 댓글**을 생성하세요.
       - **다음의 댓글 유형들을 골고루 섞어주세요**:
         - 🤓 **팩트 체크형**: 논리적으로 따지거나 부연 설명하는 유형
         - 😡 **급발진형**: 맥락 없이 욕하거나 화내는 유형 (단, 심한 욕설은 *** 처리)
         - 🤪 **드립/밈 중독형**: 야민정음, 주접 드립, 무해한 유행어, 이모티콘 남발
         - 🕵️ **음모론자**: " +:+ Js.dq +:+ "이거 다 조작인거 아시죠?" +:+ Js.dq +:+ ", " +:+ Js.dq +:+ "배후에 누가 있다" +:+ Js.dq +:+ "
         - 🤖 **스팸/광고 봇**: " +:+ Js.dq +:+ "OOO 코인 무료 리딩방 입장 -> [링크]" +:+ Js.dq +:+ " (링크는 가짜로)
         - 😴 **무관심/딴소리형**: " +:+ Js.dq +:+ "그래서 오늘 점심 뭐 먹지?" +:+ Js.dq +:+ ", " +:+ Js.dq +:+ "1등" +:+ Js.dq +:+ "
       - 말투의 리얼함을 극대화하세요. (오타, 초성체 `ㅋㅋㅋㅋ` 등 포함)
       - **좋아요 수**: 0개부터 5000개 이상까지 극단적으로 다양하게 분포시키세요.

    2. **타 언론사 보도**:
       - 설정된 시대와 모드에 맞는 타 언론사 헤드라인 3~5개를 생성하세요.

    3. **금융 시장 반응 (Market Analysis) - 지능적 선택**:
       - 기사의 내용을 분석하여 **가장 영향을 많이 받을 것으로 예상되는 시장 지표**를 1~3개 선정하여 `stockAnalysis` 배열에 담으세요.
       - **자동 판단 로직**:
         - **코인/암호화폐/블록체인** 관련 기사 -> **비트코인(BTC)**, **이더리움(ETH)**, **리플(XRP)**, **도지코인(DOGE)** 중 관련성 높은 것.
         - **환율/무역/달러/엔화** 관련 기사 -> **USD/KRW**, **JPY/KRW**.
         - **한국 경제/부동산/삼성전자** 관련 기사 -> **KOSPI**, **KOSDAQ**, **삼성전자**.
         - **미국 경제/빅테크/AI** 관련 기사 -> **NASDAQ**, **S&P500**, **NVDA(엔비디아)**.
         - **전쟁/국제유가/식량** 관련 기사 -> **WTI(유가)**, **Gold(금)**, **대두/밀 선물**.
       - 각 지표별로 그래프 데이터(약 7~10개 포인트)를 생성하되, **기사의 충격 수준에 비례하여 변동 폭을 설정**하세요. (충격적일수록 급등락)
       - `marketCommentary`: 왜 이 지표가 변동했는지 기사 내용과 연결하여 설명하세요.

    4. **관련 섹터/종목 등락**: 선택된 지표와 관련된 세부 종목이나 섹터의 등락률(%)을 생성하세요.
    5. **사회 지표**: 국가 불안도, 경제 안정성, 분노 지수(0~100)를 측정하세요.
    
    6. **[중요] 안전 가이드라인 준수**: 
       - **일베 등 특정 극단적 커뮤니티의 용어(고인 모독, 특정 지역 비하, 혐오 은어)는 절대 사용하지 마세요.**
       - 젠더 갈등을 조장하는 심각한 혐오 표현이나 소수자 차별 발언은 배제하세요.
       - 풍자와 해학은 허용되나, 사회적 금기를 넘는 표현은 필터링하세요.
  ".

Definition reply_prompt_text (eraContext : string) (article : Article.t) (originalComment : Comment.t) (reporterReply : string) : string :=
  "
    상황: 사용자가 작성한 기사에 달린 댓글에 대해, 기자(사용자)가 답글을 달았습니다.
    이에 대한 네티즌들의 재반응(답글의 답글)을 1~2개 생성해주세요.

    " +:+ eraContext +:+ "
    
    모드 상태:
    " +:+ (if Js.truthy (Article.isEmergencyMode article) then "- [국가 비상사태]" else EmptyString) +:+ "
    " +:+ (if Js.truthy (Article.isCrazyMode article) then "- [미친 기자 취급]" else EmptyString) +:+ "
    " +:+ (if Js.truthy (Article.isFakeNews article) then "- [가짜 뉴스 논란]" else EmptyString) +:+ "

    기사 제목: " +:+ Article.title article +:+ "
    
    원 댓글 작성자: " +:+ Comment.username originalComment +:+ "
    원 댓글 내용: " +:+ Comment.content originalComment +:+ "
    플랫폼: " +:+ Comment.platform originalComment +:+ "

    기자(사용자)의 답글: " +:+ reporterReply +:+ "

    지시사항:
    1. 기자의 답글에 대해 네티즌들이 보일 법한 리얼한 반응을 작성하세요.
    2. 현재 활성화된 모드(비상사태, 광기 등)의 분위기를 반영하세요.
    3. 작성자는 원 댓글 작성자일 수도 있고, 제3자일 수도 있습니다.
    4. **혐오 표현 및 일베 등 특정 극단적 커뮤니티 용어 사용 금지.**
  ".

(** ** Era context and mode instructions *)

Section Service.

(** [new Date().getFullYear()] and the global [parseInt]. *)
Variable currentYear : Z.
Variable parseInt : string → Js.number.

(** [article.isTimeMachineMode && article.targetYear
     ? parseInt(article.targetYear) : currentYear] *)
Definition targetYearOf (article : Article.t) : Js.number :=
  if Js.truthy (Article.isTimeMachineMode article)
     && Js.truthy_str (Article.targetYear article)
  then parseInt (default EmptyString (Article.targetYear article))
  else Js.Num currentYear.

Definition getEraContext (article : Article.t) : string :=
  let targetYear := targetYearOf article in
  if Js.truthy (Article.isTimeMachineMode article) then
    if Js.lt targetYear (Js.Num 1990) then era_print targetYear
    else if Js.lt targetYear (Js.Num 2000) then era_pc targetYear
    else if Js.lt targetYear (Js.Num 2010) then era_cyworld targetYear
    else if Js.gt targetYear (Js.Num (currentYear + 5)) then era_future targetYear
    else era_year targetYear
  else era_now.

(** [// 1. Era Context (Base)] of [analyzeArticle]. *)
Definition eraContextFull (article : Article.t) : string :=
  let targetYear := targetYearOf article in
  if Js.truthy (Article.isTimeMachineMode article) then
    if Js.lt targetYear (Js.Num 1990) then eraFull_print targetYear
    else if Js.ge targetYear (Js.Num 1990) && Js.lt targetYear (Js.Num 2000)
    then eraFull_pc targetYear
    else if Js.ge targetYear (Js.Num 2000) && Js.lt targetYear (Js.Num 2010)
    then eraFull_cyworld targetYear
    else if Js.gt targetYear (Js.Num (currentYear + 5)) then eraFull_future targetYear
    else eraFull_year targetYear
  else eraFull_now.

(** [// 2. Mode Instructions (Combine Multiple)] of [analyzeArticle]: the
    array starts empty and every [push] appends at its end. *)
Definition modeInstructions (article : Article.t) : list string :=
  let modeInstructions := [] in
  let modeInstructions :=
    if Js.truthy (Article.isEmergencyMode article)
    then Js.push modeInstructions mode_emergency else modeInstructions in
  let modeInstructions :=
    if Js.truthy (Article.isCrazyMode article)
    then Js.push modeInstructions mode_crazy else modeInstructions in
  let modeInstructions :=
    if Js.truthy (Article.isFakeNews article)
    then Js.push modeInstructions mode_fakeNews else modeInstructions in
  let modeInstructions :=
    if (length modeInstructions =? 0)%nat
    then Js.push modeInstructions mode_normal else modeInstructions in
  modeInstructions.

Definition previousContext (article : Article.t) : string :=
  match Article.previousArticleContext article with
  | Some c => if Js.nonempty c then previousContext_text c else EmptyString
  | None => EmptyString
  end.

Definition prompt (article : Article.t) : string :=
  prompt_text (eraContextFull article) (previousContext article) article
              (modeInstructions article).

Definition modelId : string := "gemini-3-flash-preview".

Definition analyzeRequest (article : Article.t) : GenerateContentParameters :=
  {| model := modelId;
     contents := prompt article;
     systemInstruction := Some "You are a creative writing AI designed to simulate realistic Korean netizen reactions and financial market impacts. Output must be in valid JSON format.";
     responseSchema := SimulationResultSchema |}.

Definition replyRequest (article : Article.t) (originalComment : Comment.t)
    (reporterReply : string) : GenerateContentParameters :=
  {| model := modelId;
     contents := reply_prompt_text (getEraContext article) article
                                   originalComment reporterReply;
     systemInstruction := None;
     responseSchema := ReplyArraySchema |}.

(** *** The two flows of the service *)

(** [ai.models.generateContent]: how a call with a given request settles
    when [n] calls have been made before it. [JSON.parse(text) as
    SimulationResult] and [JSON.parse(text) as Reply[]]: the decoded value,
    or what [JSON.parse] throws. *)
Variable generateContent :
  GenerateContentParameters → nat → Js.Error + GenerateContentResponse.
Variable JSON_parse_result : string → Js.Error + SimulationResult.
Variable JSON_parse_replies : string → Js.Error + list Reply.t.

(** The object returned by the [catch] of [analyzeArticle]. *)
Definition fallbackResult : SimulationResult :=
  {| viralityScore := 0;
     reliabilityScore := 0;
     controversyScore := 0;
     publicSentiment := "Error";
     editorFeedback := "시스템 오류: AI 응답 지연. 잠시 후 다시 시도해주세요.";
     impactSummary := "데이터 전송 실패.";
     viewCountEstimate := 0;
     shareCount := 0;
     comments := [];
     otherMediaCoverage := [];
     stockAnalysis := None;
     extraIndices := None |}.

(** [new Error("No response text generated")] *)
Definition noResponseText : Js.Error := Js.newError "No response text generated".

(** The end of the [try] block of [analyzeArticle]:
    [if (response.text) return JSON.parse(response.text); else throw ...] *)
Definition decodeResult (response : GenerateContentResponse) : Promise SimulationResult :=
  if Js.truthy_str (text response)
  then settle (JSON_parse_result (default EmptyString (text response)))
  else throw noResponseText.

(** [retryRequest(() => ai.models.generateContent({...}))] *)
Definition analyzeTransport (article : Article.t) : Promise GenerateContentResponse :=
  retryRequest (scripted (generateContent (analyzeRequest article)))
               default_retries default_delay.

Definition analyzeArticle (article : Article.t) : Promise SimulationResult :=
  try_catch
    (let! response := analyzeTransport article in
     decodeResult response)
    (λ error, resolve fallbackResult).

(** The ways the primary flow can fail between [w] and [w']: the transport
    throws (its retries are exhausted, or the failure is not a rate limit),
    the response has no text, or its text does not decode. *)
Inductive PrimaryFailure (article : Article.t) (w w' : World) : Prop :=
| primary_transport error :
    analyzeTransport article w = (inl error, w') →
    PrimaryFailure article w w'
| primary_empty response :
    analyzeTransport article w = (inr response, w') →
    Js.truthy_str (text response) = false →
    PrimaryFailure article w w'
| primary_decode response t error :
    analyzeTransport article w = (inr response, w') →
    text response = Some t → Js.nonempty t = true →
    JSON_parse_result t = inl error →
    PrimaryFailure article w w'.

(** The end of the [try] block of [generateReplyReaction]. *)
Definition decodeReplies (response : GenerateContentResponse) : Promise (list Reply.t) :=
  if Js.truthy_str (text response)
  then settle (JSON_parse_replies (default EmptyString (text response)))
  else resolve [].

Definition replyTransport (article : Article.t) (originalComment : Comment.t)
    (reporterReply : string) : Promise GenerateContentResponse :=
  retryRequest
    (scripted (generateContent (replyRequest article originalComment reporterReply)))
    default_retries default_delay.

Definition generateReplyReaction (article : Article.t) (originalComment : Comment.t)
    (reporterReply : string) : Promise (list Reply.t) :=
  try_catch
    (let! response := replyTransport article originalComment reporterReply in
     decodeReplies response)
    (λ e, resolve []).

(** The same three ways for the reply sub-flow. *)
Inductive ReplyFailure (article : Article.t) (originalComment : Comment.t)
    (reporterReply : string) (w w' : World) : Prop :=
| reply_transport error :
    replyTransport article originalComment reporterReply w = (inl error, w') →
    ReplyFailure article originalComment reporterReply w w'
| reply_empty response :
    replyTransport article originalComment reporterReply w = (inr response, w') →
    Js.truthy_str (text response) = false →
    ReplyFailure article originalComment reporterReply w w'
| reply_decode response t error :
    replyTransport article originalComment reporterReply w = (inr response, w') →
    text response = Some t → Js.nonempty t = true →
    JSON_parse_replies t = inl error →
    ReplyFailure article originalComment reporterReply w w'.

(** *** [App.tsx]: publishing *)

Definition handlePublish (app : App.t) : Promise App.t :=
  let app := App.setAppState App.SIMULATING app in
  try_catch
    (let! simulationResult := analyzeArticle (App.article app) in
     let app := App.setResult (Some simulationResult) app in
     let app := App.setHistory ((App.article app, simulationResult) :: App.history app) app in
     resolve (App.setAppState App.RESULT app))
    (λ error,
     let app := App.alert "AI 시뮬레이션 중 오류가 발생했습니다." app in
     resolve (App.setAppState App.EDITOR app)).

End Service.

(** ** [SimulationDashboard.tsx]: replying to a comment *)

Module Dashboard.

(** The [useState] cells of the component that the reply flow touches. *)
Record t := mk {
  localComments : list Comment.t;
  selectedPlatform : string;
  replyingTo : option nat;
  replyText : string;
  generatingReplyId : option nat
}.

(** The first render for a result: [setLocalComments(result.comments)]. *)
Definition mount (result : SimulationResult) : t :=
  {| localComments := comments result;
     selectedPlatform := "ALL";
     replyingTo := None;
     replyText := EmptyString;
     generatingReplyId := None |}.

Definition filteredComments (d : t) : list Comment.t :=
  if String.eqb (selectedPlatform d) "ALL"
  then localComments d
  else filter (λ c, Comment.platform c = selectedPlatform d) (localComments d).

(** [{ ...c, replies: [...c.replies, ...more] }] *)
Definition withMoreReplies (c : Comment.t) (more : list Reply.t) : Comment.t :=
  {| Comment.username := Comment.username c;
     Comment.content := Comment.content c;
     Comment.likes := Comment.likes c;
     Comment.sentiment := Comment.sentiment c;
     Comment.platform := Comment.platform c;
     Comment.replies := Comment.replies c ++ more |}.

(** [prev => prev.map((c, i) => i === targetCommentIdx ? {...} : c)] *)
Definition addReplies (targetCommentIdx : nat) (more : list Reply.t)
    (prev : list Comment.t) : list Comment.t :=
  imap (λ i c, if (i =? targetCommentIdx)%nat then withMoreReplies c more else c) prev.

Definition setLocalComments (f : list Comment.t → list Comment.t) (d : t) : t :=
  mk (f (localComments d)) (selectedPlatform d) (replyingTo d) (replyText d)
     (generatingReplyId d).
Definition setSelectedPlatform (p : string) (d : t) : t :=
  mk (localComments d) p (replyingTo d) (replyText d) (generatingReplyId d).
Definition setReplyingTo (r : option nat) (d : t) : t :=
  mk (localComments d) (selectedPlatform d) r (replyText d) (generatingReplyId d).
Definition setReplyText (s : string) (d : t) : t :=
  mk (localComments d) (selectedPlatform d) (replyingTo d) s (generatingReplyId d).
Definition setGeneratingReplyId (g : option nat) (d : t) : t :=
  mk (localComments d) (selectedPlatform d) (replyingTo d) (replyText d) g.

(** A call of [generateReplyReaction] that has been issued and has not
    settled yet, with what its continuation has captured. *)
Record SubFlowCall := {
  targetCommentIdx : nat;
  targetComment : Comment.t;
  reporterReplyText : string
}.

Section Handlers.

(** [String.prototype.trim] and the [article] prop. *)
Variable trim : string → string.
Variable article : Article.t.

(** [handleSubmitReply] up to its [await]: the new state, and the call it
    has issued (none when it returned at its first line). *)
Definition handleSubmitReply (d : t) (targetCommentIdx : nat) (targetComment : Comment.t)
    : t * option SubFlowCall :=
  if negb (Js.nonempty (trim (replyText d))) then (d, None)
  else
    let reporterReply :=
      {| Reply.username := Js.or_str (Article.author article) "기자";
         Reply.content := replyText d;
         Reply.likes := 0 |} in
    let reporterReplyText := replyText d in
    let d := setReplyText EmptyString d in
    let d := setReplyingTo None d in
    let d := setGeneratingReplyId (Some targetCommentIdx) d in
    let d := setLocalComments (addReplies targetCommentIdx [reporterReply]) d in
    (d, Some {| targetCommentIdx := targetCommentIdx;
                targetComment := targetComment;
                reporterReplyText := reporterReplyText |}).

(** [handleSubmitReply] from its [await] on, once the call has settled. *)
Definition handleSubmitReply_resume (d : t) (call : SubFlowCall)
    (settled : Js.Error + list Reply.t) : t :=
  let d :=
    match settled with
    | inr aiReplies =>
        if (0 <? length aiReplies)%nat
        then setLocalComments (addReplies (targetCommentIdx call) aiReplies) d
        else d
    | inl error => d
    end in
  setGeneratingReplyId None d.

(** The component between two renders: its state and the calls in flight,
    oldest first. *)
Record Session := {
  view : t;
  inFlight : list SubFlowCall
}.

(** What can happen to the comment panel. *)
Inductive Action :=
| ClickPlatform (platform : string)   (* a filter button *)
| ClickReply (idx : nat)              (* the reply button of displayed comment [idx] *)
| TypeReply (s : string)              (* [onChange] of the reply input *)
| ClickCancel
| Submit (idx : nat)                  (* the submit button, or Enter, in the form of [idx] *)
| Settle (k : nat) (settled : Js.Error + list Reply.t).
                                      (* the [k]-th call in flight settles *)

Definition step (s : Session) (a : Action) : Session :=
  let d := view s in
  match a with
  | ClickPlatform platform =>
      {| view := setSelectedPlatform platform d; inFlight := inFlight s |}
  | ClickReply idx =>
      if (idx <? length (filteredComments d))%nat
      then {| view := setReplyingTo (Some idx) d; inFlight := inFlight s |}
      else s
  | TypeReply text =>
      match replyingTo d with
      | Some _ => {| view := setReplyText text d; inFlight := inFlight s |}
      | None => s
      end
  | ClickCancel =>
      match replyingTo d with
      | Some _ =>
          {| view := setReplyText EmptyString (setReplyingTo None d);
             inFlight := inFlight s |}
      | None => s
      end
  | Submit idx =>
      (* the form is rendered inside displayed comment [idx] only while
         [replyingTo === idx] *)
      match filteredComments d !! idx with
      | Some comment =>
          if bool_decide (replyingTo d = Some idx) then
            match handleSubmitReply d idx comment with
            | (d', Some call) => {| view := d'; inFlight := inFlight s ++ [call] |}
            | (d', None) => {| view := d'; inFlight := inFlight s |}
            end
          else s
      | None => s
      end
  | Settle k settled =>
      match inFlight s !! k with
      | Some call =>
          {| view := handleSubmitReply_resume d call settled;
             inFlight := delete k (inFlight s) |}
      | None => s
      end
  end.

Definition run (s : Session) (actions : list Action) : Session :=
  foldl step s actions.

End Handlers.

End Dashboard.

(** ** Concrete collaborators, for running the model *)

Module Fixture.

(** A [parseInt] for strings that begin with a decimal digit: the value of
    the leading digits; [NaN] when there is none. *)
Definition digit (c : Ascii.ascii) : option Z :=
  let n := Ascii.nat_of_ascii c in
  if (48 <=? n)%nat && (n <=? 57)%nat then Some (Z.of_nat (n - 48)) else None.

Fixpoint digits (acc : option Z) (s : string) : option Z :=
  match s with
  | String c s' =>
      match digit c with
      | Some d => digits (Some (10 * default 0 acc + d)%Z) s'
      | None => acc
      end
  | EmptyString => acc
  end.

Definition parseInt (s : string) : Js.number :=
  match digits None s with Some z => Js.Num z | None => Js.NaN end.

(** A [trim] for ASCII text. *)
Fixpoint trimStart (s : string) : string :=
  match s with
  | String c s' => if Ascii.is_space c then trimStart s' else s
  | EmptyString => EmptyString
  end.

Definition trim (s : string) : string :=
  String.rev (trimStart (String.rev (trimStart s))).

Definition currentYear : Z := 2026.

(** [INITIAL_ARTICLE] of [types.ts], with the clock read at [currentYear]. *)
Definition INITIAL_ARTICLE : Article.t :=
  {| Article.title := EmptyString;
     Article.category := Article.SOCIETY;
     Article.content := EmptyString;
     Article.author := "김기자";
     Article.timestamp := "2026-01-01T00:00:00.000Z";
     Article.isFakeNews := Some false;
     Article.isCrazyMode := Some false;
     Article.isEmergencyMode := Some false;
     Article.isTimeMachineMode := Some false;
     Article.targetYear := Some "2026";
     Article.previousArticleContext := None |}.

Definition withFlags (emergency crazy fakeNews timeMachine : bool)
    (year : string) : Article.t :=
  {| Article.title := "Bridge closed";
     Article.category := Article.SOCIETY;
     Article.content := "The old bridge is closed for repairs.";
     Article.author := "Kim";
     Article.timestamp := "2026-01-01T00:00:00.000Z";
     Article.isFakeNews := Some fakeNews;
     Article.isCrazyMode := Some crazy;
     Article.isEmergencyMode := Some emergency;
     Article.isTimeMachineMode := Some timeMachine;
     Article.targetYear := Some year;
     Article.previousArticleContext := None |}.

Definition plain : Article.t := withFlags false false false false "2026".
Definition timeMachine (year : string) : Article.t :=
  withFlags false false false true year.

(** Failures of the transport. *)
Definition tooManyRequests : Js.Error :=
  {| Js.status := Some 429%Z; Js.code := None; Js.message := Some "Too Many Requests" |}.
Definition quotaMessage : Js.Error :=
  Js.newError "got status: 429 RESOURCE_EXHAUSTED".
Definition networkDown : Js.Error := Js.newError "fetch failed".

Definition withText (t : string) : GenerateContentResponse := {| text := Some t |}.
Definition noText : GenerateContentResponse := {| text := None |}.

(** Units of work. *)
Definition twiceLimited (n : nat) : Js.Error + string :=
  match n with
  | 0 => inl tooManyRequests
  | 1 => inl quotaMessage
  | _ => inr "done"
  end.
Definition alwaysLimited (n : nat) : Js.Error + string := inl tooManyRequests.
Definition offline (n : nat) : Js.Error + string := inl networkDown.

(** Generation services: each ignores the request. *)
Definition silentService (_ : GenerateContentParameters) (n : nat)
    : Js.Error + GenerateContentResponse := inr noText.
Definition garbledService (_ : GenerateContentParameters) (n : nat)
    : Js.Error + GenerateContentResponse := inr (withText "{oops").
Definition blankService (_ : GenerateContentParameters) (n : nat)
    : Js.Error + GenerateContentResponse := inr {| text := Some EmptyString |}.
Definition limitedService (_ : GenerateContentParameters) (n : nat)
    : Js.Error + GenerateContentResponse := inl tooManyRequests.
Definition offlineService (_ : GenerateContentParameters) (n : nat)
    : Js.Error + GenerateContentResponse := inl networkDown.

(** A [JSON.parse] that rejects every text. *)
Definition syntaxError : Js.Error := Js.newError "Unexpected token o in JSON at position 1".
Definition rejectResult (_ : string) : Js.Error + SimulationResult := inl syntaxError.
Definition rejectReplies (_ : string) : Js.Error + list Reply.t := inl syntaxError.

(** The event loop after one request, and after a request and three retries. *)
Definition once : World := {| attempts := 1; log := [Request] |}.
Definition exhausted : World :=
  {| attempts := 4;
     log := [Request; Sleep 2000; Request; Sleep 4000; Request; Sleep 8000; Request] |}.

Definition editing : App.t :=
  {| App.appState := App.EDITOR;
     App.article := plain;
     App.result := None;
     App.history := [];
     App.alerts := [] |}.

Definition afterFailure : App.t :=
  {| App.appState := App.RESULT;
     App.article := plain;
     App.result := Some fallbackResult;
     App.history := [(plain, fallbackResult)];
     App.alerts := [] |}.

(** Two comments from two platforms, nobody has replied yet. *)
Definition onSNS : Comment.t :=
  {| Comment.username := "mina"; Comment.content := "first";
     Comment.likes := 3; Comment.sentiment := positive;
     Comment.platform := "SNS"; Comment.replies := [] |}.
Definition onPortal : Comment.t :=
  {| Comment.username := "joon"; Comment.content := "really?";
     Comment.likes := 12; Comment.sentiment := negative;
     Comment.platform := "Portal"; Comment.replies := [] |}.

Definition opened : Dashboard.Session :=
  {| Dashboard.view :=
       {| Dashboard.localComments := [onSNS; onPortal];
          Dashboard.selectedPlatform := "ALL";
          Dashboard.replyingTo := None;
          Dashboard.replyText := EmptyString;
          Dashboard.generatingReplyId := None |};
     Dashboard.inFlight := [] |}.

Definition play : list Dashboard.Action → Dashboard.Session :=
  Dashboard.run trim plain opened.

Definition byKim (text : string) : Reply.t :=
  {| Reply.username := "Kim"; Reply.content := text; Reply.likes := 0 |}.

(** A generated reaction to a reply of the reporter. *)
Definition reaction (to : string) : Reply.t :=
  {| Reply.username := "passerby"; Reply.content := "re: " +:+ to; Reply.likes := 1 |}.

Definition repliesOf (s : Dashboard.Session) : list (list Reply.t) :=
  Comment.replies <$> Dashboard.localComments (Dashboard.view s).

End Fixture.

(** ** The transport, measured *)

(** What [k] runs that were each followed by a retry leave in the log, the
    first wait being [delay]. *)
Fixpoint retried (k : nat) (delay : Z) : list Event :=
  match k with
  | O => []
  | S k' => Request :: Sleep delay :: retried k' (delay * 2)
  end.

(** The milliseconds waited, and the requests made, in a log. *)
Fixpoint waited (events : list Event) : Z :=
  match events with
  | [] => 0
  | Sleep ms :: events' => ms + waited events'
  | Request :: events' => waited events'
  end.

Fixpoint requested (events : list Event) : nat :=
  match events with
  | [] => 0
  | Request :: events' => S (requested events')
  | Sleep _ :: events' => requested events'
  end.

(** ** [App.tsx]: the other handlers *)

Definition followUpContext_text (article : Article.t)
    (publicSentiment impactSummary : string) : string :=
  "
      [직전 기사]
      제목: " +:+ Article.title article +:+ "
      내용: " +:+ Article.content article +:+ "
      대중 여론: " +:+ publicSentiment +:+ "
      사회적 파장: " +:+ impactSummary +:+ "
    ".

Module Shell.

(** The [useState] cells of [App]: the five of [App.t], and the four that
    the publish handler does not touch. *)
Record t := mk {
  app : App.t;
  showHistory : bool;
  secretClickCount : nat;
  showPinModal : bool;
  pinInput : string
}.

Definition setArticle (a : Article.t) (s : App.t) : App.t :=
  App.mk (App.appState s) a (App.result s) (App.history s) (App.alerts s).

Definition withApp (f : App.t → App.t) (s : t) : t :=
  mk (f (app s)) (showHistory s) (secretClickCount s) (showPinModal s) (pinInput s).
Definition setShowHistory (b : bool) (s : t) : t :=
  mk (app s) b (secretClickCount s) (showPinModal s) (pinInput s).
Definition setSecretClickCount (n : nat) (s : t) : t :=
  mk (app s) (showHistory s) n (showPinModal s) (pinInput s).
Definition setShowPinModal (b : bool) (s : t) : t :=
  mk (app s) (showHistory s) (secretClickCount s) b (pinInput s).
Definition setPinInput (p : string) (s : t) : t :=
  mk (app s) (showHistory s) (secretClickCount s) (showPinModal s) p.

(** [{ ...prev, isCrazyMode: false, isEmergencyMode: false,
       isFakeNews: false, isTimeMachineMode: false }] *)
Definition allModesOff (prev : Article.t) : Article.t :=
  {| Article.title := Article.title prev;
     Article.category := Article.category prev;
     Article.content := Article.content prev;
     Article.author := Article.author prev;
     Article.timestamp := Article.timestamp prev;
     Article.isFakeNews := Some false;
     Article.isCrazyMode := Some false;
     Article.isEmergencyMode := Some false;
     Article.isTimeMachineMode := Some false;
     Article.targetYear := Article.targetYear prev;
     Article.previousArticleContext := Article.previousArticleContext prev |}.

(** [{ ...prev, isCrazyMode: true }] *)
Definition crazyOn (prev : Article.t) : Article.t :=
  {| Article.title := Article.title prev;
     Article.category := Article.category prev;
     Article.content := Article.content prev;
     Article.author := Article.author prev;
     Article.timestamp := Article.timestamp prev;
     Article.isFakeNews := Article.isFakeNews prev;
     Article.isCrazyMode := Some true;
     Article.isEmergencyMode := Article.isEmergencyMode prev;
     Article.isTimeMachineMode := Article.isTimeMachineMode prev;
     Article.targetYear := Article.targetYear prev;
     Article.previousArticleContext := Article.previousArticleContext prev |}.

(** [{ ...prev, isEmergencyMode: true }] *)
Definition emergencyOn (prev : Article.t) : Article.t :=
  {| Article.title := Article.title prev;
     Article.category := Article.category prev;
     Article.content := Article.content prev;
     Article.author := Article.author prev;
     Article.timestamp := Article.timestamp prev;
     Article.isFakeNews := Article.isFakeNews prev;
     Article.isCrazyMode := Article.isCrazyMode prev;
     Article.isEmergencyMode := Some true;
     Article.isTimeMachineMode := Article.isTimeMachineMode prev;
     Article.targetYear := Article.targetYear prev;
     Article.previousArticleContext := Article.previousArticleContext prev |}.

Definition normalized : string :=
  "✅ 시스템 정상화 ✅" +:+ Js.nl +:+ "모든 특수 모드가 해제되었습니다.".
Definition crazyAdded : string :=
  "🦄 광기 모드가 추가되었습니다 🦄" +:+ Js.nl +:+ "(CRAZY MODE ADDED)".
Definition emergencyAdded : string :=
  "🚨 긴급 재난 모드가 추가되었습니다 🚨" +:+ Js.nl +:+ "(EMERGENCY MODE ADDED)".
Definition denied : string := "접근 거부: 잘못된 보안 코드입니다.".

Section Handlers.

(** The clock when [types.ts] was loaded: [new Date().toISOString()] and
    [new Date().getFullYear()]. *)
Variable loadedAt : string.
Variable loadedYear : Z.

Definition INITIAL_ARTICLE : Article.t :=
  {| Article.title := EmptyString;
     Article.category := Article.SOCIETY;
     Article.content := EmptyString;
     Article.author := "김기자";
     Article.timestamp := loadedAt;
     Article.isFakeNews := Some false;
     Article.isCrazyMode := Some false;
     Article.isEmergencyMode := Some false;
     Article.isTimeMachineMode := Some false;
     Article.targetYear := Some (pretty loadedYear);
     Article.previousArticleContext := None |}.

(** In the handlers below [now] is [new Date().toISOString()] at the call. *)
Definition handleReset (now : string) (s : t) : t :=
  let s := withApp (setArticle
    {| Article.title := Article.title INITIAL_ARTICLE;
       Article.category := Article.category INITIAL_ARTICLE;
       Article.content := Article.content INITIAL_ARTICLE;
       Article.author := Article.author INITIAL_ARTICLE;
       Article.timestamp := now;
       Article.isFakeNews := Article.isFakeNews INITIAL_ARTICLE;
       Article.isCrazyMode := Article.isCrazyMode INITIAL_ARTICLE;
       Article.isEmergencyMode := Article.isEmergencyMode INITIAL_ARTICLE;
       Article.isTimeMachineMode := Article.isTimeMachineMode INITIAL_ARTICLE;
       Article.targetYear := Article.targetYear INITIAL_ARTICLE;
       Article.previousArticleContext :=
         Article.previousArticleContext INITIAL_ARTICLE |}) s in
  let s := withApp (App.setResult None) s in
  let s := withApp (App.setAppState App.EDITOR) s in
  setSecretClickCount 0 s.

Definition handleFollowUp (now : string) (s : t) : t :=
  let article := App.article (app s) in
  let result := App.result (app s) in
  let context :=
    followUpContext_text article
      (match result with Some r => publicSentiment r | None => "undefined" end)
      (match result with Some r => impactSummary r | None => "undefined" end) in
  let s := withApp (setArticle
    {| Article.title := Article.title INITIAL_ARTICLE;
       Article.category := Article.category article;
       Article.content := Article.content INITIAL_ARTICLE;
       Article.author := Article.author article;
       Article.timestamp := now;
       Article.isFakeNews := Article.isFakeNews article;
       Article.isCrazyMode := Article.isCrazyMode article;
       Article.isEmergencyMode := Article.isEmergencyMode article;
       Article.isTimeMachineMode := Article.isTimeMachineMode article;
       Article.targetYear := Article.targetYear article;
       Article.previousArticleContext := Some context |}) s in
  let s := withApp (App.setResult None) s in
  let s := withApp (App.setAppState App.EDITOR) s in
  setSecretClickCount 0 s.

End Handlers.

Definition handleLoadHistory (item : Article.t * SimulationResult) (s : t) : t :=
  let s := withApp (setArticle (fst item)) s in
  let s := withApp (App.setResult (Some (snd item))) s in
  let s := withApp (App.setAppState App.RESULT) s in
  setShowHistory false s.

Definition handleSecretClick (s : t) : t :=
  let newCount := secretClickCount s + 1 in
  let s := setSecretClickCount newCount s in
  if (4 <=? newCount)%nat
  then setSecretClickCount 0 (setShowPinModal true s)
  else s.

Definition handlePinSubmit (s : t) : t :=
  if String.eqb (pinInput s) "0000" then
    let s := withApp (λ a, setArticle (allModesOff (App.article a)) a) s in
    let s := setShowPinModal false s in
    let s := setPinInput EmptyString s in
    withApp (App.alert normalized) s
  else if String.eqb (pinInput s) "6666" then
    let s := withApp (λ a, setArticle (crazyOn (App.article a)) a) s in
    let s := setShowPinModal false s in
    let s := setPinInput EmptyString s in
    withApp (App.alert crazyAdded) s
  else if String.eqb (pinInput s) "9453" then
    let s := withApp (λ a, setArticle (emergencyOn (App.article a)) a) s in
    let s := setShowPinModal false s in
    let s := setPinInput EmptyString s in
    withApp (App.alert emergencyAdded) s
  else
    let s := withApp (App.alert denied) s in
    let s := setPinInput EmptyString s in
    setShowPinModal false s.

End Shell.

(** ** [SimulationDashboard.tsx]: what the panel derives from the comments *)

Global Instance Sentiment_eq_dec : EqDecision Sentiment.
Proof. solve_decision. Defined.

Module Bar.
Record t := mk {
  name : string;
  value : nat;
  color : string
}.
End Bar.

Definition sentimentData (localComments : list Comment.t) : list Bar.t :=
  [ {| Bar.name := "긍정";
       Bar.value := length (filter (λ c, Comment.sentiment c = positive) localComments);
       Bar.color := "#4ade80" |};
    {| Bar.name := "중립";
       Bar.value := length (filter (λ c, Comment.sentiment c = neutral) localComments);
       Bar.color := "#94a3b8" |};
    {| Bar.name := "부정";
       Bar.value := length (filter (λ c, Comment.sentiment c = negative) localComments);
       Bar.color := "#f87171" |} ].

(** [Array.from(new Set(values))]: each value once, in the order of its
    first occurrence; [seen] is what the set holds so far. *)
Fixpoint setValues (seen : list string) (values : list string) : list string :=
  match values with
  | [] => []
  | v :: values' =>
      if bool_decide (v ∈ seen) then setValues seen values'
      else v :: setValues (v :: seen) values'
  end.

Definition availablePlatforms (localComments : list Comment.t) : list string :=
  "ALL" :: setValues [] (Comment.platform <$> localComments).

(** ** More concrete data *)

Module Sample.

Definition loadedAt : string := "2026-01-01T00:00:00.000Z".
Definition later : string := "2026-01-02T09:30:00.000Z".

(** An article with every mode on, set in 1985. *)
Definition wild : Article.t := Fixture.withFlags true true true true "1985".

(** A result with the two comments of [Fixture]. *)
Definition report : SimulationResult :=
  {| viralityScore := 80;
     reliabilityScore := 40;
     controversyScore := 90;
     publicSentiment := "Angry";
     editorFeedback := "bold";
     impactSummary := "traffic chaos";
     comments := [Fixture.onSNS; Fixture.onPortal];
     otherMediaCoverage := [];
     viewCountEstimate := 1000;
     shareCount := 10;
     stockAnalysis := None;
     extraIndices := None |}.

Definition shell (article : Article.t) (pin : string) : Shell.t :=
  {| Shell.app :=
       {| App.appState := App.EDITOR;
          App.article := article;
          App.result := None;
          App.history := [];
          App.alerts := [] |};
     Shell.showHistory := false;
     Shell.secretClickCount := 0;
     Shell.showPinModal := true;
     Shell.pinInput := pin |}.


(** A service that answers every request with the same text, and a
    [JSON.parse] that decodes every text to the same value. *)
Definition answering (_ : GenerateContentParameters) (n : nat)
    : Js.Error + GenerateContentResponse := inr (Fixture.withText "{...}").
Definition acceptResult (_ : string) : Js.Error + SimulationResult := inr report.
Definition acceptReplies (_ : string) : Js.Error + list Reply.t :=
  inr [Fixture.reaction "thanks"].

(** Work that fails with a rate-limit signal once. *)
Definition onceLimited (n : nat) : Js.Error + string :=
  match n with
  | 0 => inl Fixture.tooManyRequests
  | _ => inr "done"
  end.

(** A third comment, on the platform of the first. *)
Definition alsoOnSNS : Comment.t :=
  {| Comment.username := "hana"; Comment.content := "lol";
     Comment.likes := 0; Comment.sentiment := neutral;
     Comment.platform := "SNS"; Comment.replies := [] |}.

End Sample.

(** * Properties *)

(** ** Substrings *)

Lemma app_String (a : Ascii.ascii) (s t : string) :
  String a s +:+ t = String a (s +:+ t).
Proof. reflexivity. Qed.

Lemma app_Empty (t : string) : EmptyString +:+ t = t.
Proof. reflexivity. Qed.

Lemma prefix_true_iff (p s : string) :
  String.prefix p s = true ↔ ∃ post, s = p +:+ post.
Proof.
  revert s. induction p as [|a p IH]; intros s; simpl.
  - split; [intros _; by exists s | by destruct s].
  - destruct s as [|b s]; simpl.
    + split; [done | intros [post ?]; by rewrite app_String in *].
    + destruct (Ascii.ascii_dec a b) as [->|Hne].
      * rewrite IH. split; intros [post H]; exists post;
          rewrite app_String in *; congruence.
      * split; [done | intros [post H]; rewrite app_String in H; congruence].
Qed.

Lemma includes_unfold (s sub : string) :
  Js.includes s sub =
  String.prefix sub s ||
  match s with EmptyString => false | String _ s' => Js.includes s' sub end.
Proof. by destruct s. Qed.

Lemma includes_true_iff (s sub : string) :
  Js.includes s sub = true ↔ ∃ pre post, s = pre +:+ sub +:+ post.
Proof.
  induction s as [|a s IH]; rewrite includes_unfold, orb_true_iff, prefix_true_iff.
  - split.
    + intros [[post ?]|?]; [by exists EmptyString, post | done].
    + intros [[|b pre] [post Heq]]; [left; by exists post |].
      by rewrite app_String in Heq.
  - rewrite IH. split.
    + intros [[post ?]|(pre & post & ->)]; [by exists EmptyString, post |].
      by exists (String a pre), post.
    + intros [[|b pre] [post Heq]]; [left; by exists post |].
      right. exists pre, post. rewrite app_String in Heq. congruence.
Qed.

(** ** The retrying transport *)

Lemma retryRequest_unfold {T} (outs : nat → Js.Error + T) retries delay w :
  retryRequest (scripted outs) retries delay w =
  match outs (attempts w) with
  | inr v => (inr v, afterRequest w)
  | inl error =>
      match retries with
      | S retries' =>
          if isRateLimit error
          then retryRequest (scripted outs) retries' (delay * 2)
                            (afterSleep delay (afterRequest w))
          else (inl error, afterRequest w)
      | O => (inl error, afterRequest w)
      end
  end.
Proof.
  destruct retries; simpl; unfold try_catch, scripted, afterRequest;
    destruct (outs (attempts w)) as [e|v]; try done.
  by destruct (isRateLimit e).
Qed.

Lemma retryRequest_success {T} (outs : nat → Js.Error + T) retries delay w v :
  outs (attempts w) = inr v →
  retryRequest (scripted outs) retries delay w = (inr v, afterRequest w).
Proof. intros H. by rewrite retryRequest_unfold, H. Qed.

Lemma retryRequest_retry {T} (outs : nat → Js.Error + T) retries delay w error :
  outs (attempts w) = inl error → isRateLimit error = true →
  retryRequest (scripted outs) (S retries) delay w =
  retryRequest (scripted outs) retries (delay * 2) (afterSleep delay (afterRequest w)).
Proof. intros H1 H2. by rewrite retryRequest_unfold, H1, H2. Qed.

Lemma retryRequest_exhausted {T} (outs : nat → Js.Error + T) delay w error :
  outs (attempts w) = inl error →
  retryRequest (scripted outs) 0 delay w = (inl error, afterRequest w).
Proof. intros H. by rewrite retryRequest_unfold, H. Qed.

Lemma retryRequest_fatal {T} (outs : nat → Js.Error + T) retries delay w error :
  outs (attempts w) = inl error → isRateLimit error = false →
  retryRequest (scripted outs) retries delay w = (inl error, afterRequest w).
Proof. intros H1 H2. rewrite retryRequest_unfold, H1, H2. by destruct retries. Qed.

(** The transport never runs the work more than [retries + 1] times, and a
    run is followed by another one only when it failed with a rate-limit
    signal. *)
Lemma retryRequest_attempts {T} (outs : nat → Js.Error + T) retries delay w r w' :
  retryRequest (scripted outs) retries delay w = (r, w') →
  attempts w < attempts w' ≤ attempts w + S retries
  ∧ ∀ k, attempts w ≤ k → S k < attempts w' →
      ∃ error, outs k = inl error ∧ isRateLimit error = true.
Proof.
  revert delay w. induction retries as [|retries IH]; intros delay w;
    rewrite retryRequest_unfold; destruct (outs (attempts w)) as [e|v] eqn:Hout;
    try (intros [= <- <-]; simpl; split; [lia | intros; lia]).
  destruct (isRateLimit e) eqn:Hrate;
    [| intros [= <- <-]; simpl; split; [lia | intros; lia]].
  intros Hrun. apply IH in Hrun as [Hle Hk]. simpl in *. split; [lia|].
  intros k Hge Hlt. destruct (decide (k = attempts w)) as [->|Hne]; [eauto|].
  apply Hk; lia.
Qed.

(** C5. A unit of work that fails with a rate-limit signal exactly twice and
    then succeeds: the transport, called with its defaults, returns the
    success after three runs, having waited 2000 ms before the first retry
    and 4000 ms before the second. A unit of work that fails with a
    rate-limit signal every time: the transport gives up after the first
    run and three retries (four runs, with waits of 2000, 4000 and 8000 ms
    between them) and throws the failure of the last run. *)
Theorem retryRequest_backoff_schedule {T} (outs : nat → Js.Error + T) :
  (∀ e0 e1 v,
     outs 0 = inl e0 → isRateLimit e0 = true →
     outs 1 = inl e1 → isRateLimit e1 = true →
     outs 2 = inr v →
     retryRequest (scripted outs) default_retries default_delay fresh =
     (inr v, {| attempts := 3;
                log := [Request; Sleep 2000; Request; Sleep 4000; Request] |}))
  ∧ ((∀ n, ∃ e, outs n = inl e ∧ isRateLimit e = true) →
     ∃ e, outs 3 = inl e ∧
       retryRequest (scripted outs) default_retries default_delay fresh =
       (inl e, {| attempts := 4;
                  log := [Request; Sleep 2000; Request; Sleep 4000;
                          Request; Sleep 8000; Request] |})).
Proof.
  unfold default_retries, default_delay. split.
  - intros e0 e1 v H0 R0 H1 R1 H2.
    rewrite (retryRequest_retry _ _ _ _ e0) by done.
    rewrite (retryRequest_retry _ _ _ _ e1) by done.
    by rewrite (retryRequest_success _ _ _ _ v).
  - intros Hall.
    destruct (Hall 0) as (e0 & H0 & R0), (Hall 1) as (e1 & H1 & R1),
             (Hall 2) as (e2 & H2 & R2), (Hall 3) as (e3 & H3 & R3).
    exists e3. split; [done|].
    rewrite (retryRequest_retry _ _ _ _ e0) by done.
    rewrite (retryRequest_retry _ _ _ _ e1) by done.
    rewrite (retryRequest_retry _ _ _ _ e2) by done.
    by rewrite (retryRequest_exhausted _ _ _ e3).
Qed.

Lemma retryRequest_backoff_schedule_witness :
  retryRequest (scripted Fixture.twiceLimited) default_retries default_delay fresh =
  (inr "done", {| attempts := 3;
                  log := [Request; Sleep 2000; Request; Sleep 4000; Request] |})
  ∧ ∃ e, Fixture.alwaysLimited 3 = inl e ∧
      retryRequest (scripted Fixture.alwaysLimited) default_retries default_delay fresh =
      (inl e, {| attempts := 4;
                 log := [Request; Sleep 2000; Request; Sleep 4000;
                         Request; Sleep 8000; Request] |}).
Proof.
  split.
  - apply (proj1 (retryRequest_backoff_schedule Fixture.twiceLimited)
             Fixture.tooManyRequests Fixture.quotaMessage); reflexivity.
  - apply (proj2 (retryRequest_backoff_schedule Fixture.alwaysLimited)).
    intros n. exists Fixture.tooManyRequests. split; reflexivity.
Defined.

(** C6. A failure counts as rate-limiting exactly when its [status] is 429,
    or its [code] is 429, or its [message] contains the text 429. A failure
    that does not count is thrown on at once: the work has run once and
    nothing was waited for. Whatever the work does, each run that was
    followed by another run had failed with a rate-limit signal. *)
Theorem only_rate_limits_are_retried :
  (∀ error,
     isRateLimit error = true ↔
     Js.status error = Some 429%Z ∨ Js.code error = Some 429%Z ∨
     ∃ m pre post, Js.message error = Some m ∧ m = pre +:+ "429" +:+ post)
  ∧ (∀ T (outs : nat → Js.Error + T) retries delay w error,
       outs (attempts w) = inl error → isRateLimit error = false →
       retryRequest (scripted outs) retries delay w =
       (inl error, {| attempts := S (attempts w); log := log w ++ [Request] |}))
  ∧ (∀ T (outs : nat → Js.Error + T) retries delay w r w',
       retryRequest (scripted outs) retries delay w = (r, w') →
       ∀ k, attempts w ≤ k → S k < attempts w' →
         ∃ error, outs k = inl error ∧ isRateLimit error = true).
Proof.
  split; [|split].
  - intros [st co msg]. unfold isRateLimit. simpl.
    rewrite !orb_true_iff, !bool_decide_eq_true. split.
    + intros [[?|?]|Hm]; [by left | by right; left |].
      destruct msg as [m|]; [|done]. apply includes_true_iff in Hm as (pre & post & ->).
      right; right. by exists (pre +:+ "429" +:+ post), pre, post.
    + intros [?|[?|(m & pre & post & -> & ->)]]; [by left; left | by left; right |].
      right. apply includes_true_iff. by exists pre, post.
  - intros T outs retries delay w error Hout Hrate.
    by rewrite (retryRequest_fatal _ _ _ _ error).
  - intros T outs retries delay w r w' Hrun.
    by apply (retryRequest_attempts outs retries delay w r w').
Qed.

Lemma only_rate_limits_are_retried_witness :
  isRateLimit Fixture.quotaMessage = true
  ∧ retryRequest (scripted Fixture.offline) default_retries default_delay fresh =
    (inl Fixture.networkDown, {| attempts := 1; log := [Request] |})
  ∧ ∃ error, Fixture.twiceLimited 1 = inl error ∧ isRateLimit error = true.
Proof.
  destruct only_rate_limits_are_retried as (Hiff & Hfatal & Hretried).
  split; [|split].
  - apply Hiff. right; right.
    exists "got status: 429 RESOURCE_EXHAUSTED", "got status: ", " RESOURCE_EXHAUSTED".
    split; reflexivity.
  - apply (Hfatal string Fixture.offline default_retries default_delay fresh
                  Fixture.networkDown); reflexivity.
  - apply (Hretried string Fixture.twiceLimited default_retries default_delay fresh
                    (inr "done")
                    {| attempts := 3;
                       log := [Request; Sleep 2000; Request; Sleep 4000; Request] |});
      [reflexivity | simpl; lia | simpl; lia].
Defined.

(** ** Mode instructions *)

Lemma mode_blocks_distinct :
  NoDup [mode_emergency; mode_crazy; mode_fakeNews; mode_normal].
Proof. apply (bool_decide_unpack _). by vm_compute. Qed.

(** C7. Whatever the three flags are, the composer yields the blocks of the
    active ones, each once, emergency before crazy before fakeNews, so as
    many blocks as there are active flags; with no flag active it yields the
    normal-mode block alone. The four blocks are different texts. *)
Theorem modeInstructions_one_block_per_flag (article : Article.t) :
  let emergency := Js.truthy (Article.isEmergencyMode article) in
  let crazy := Js.truthy (Article.isCrazyMode article) in
  let fakeNews := Js.truthy (Article.isFakeNews article) in
  modeInstructions article =
    (if emergency || crazy || fakeNews
     then (if emergency then [mode_emergency] else []) ++
          (if crazy then [mode_crazy] else []) ++
          (if fakeNews then [mode_fakeNews] else [])
     else [mode_normal])
  ∧ length (modeInstructions article) =
      (if emergency || crazy || fakeNews
       then Nat.b2n emergency + Nat.b2n crazy + Nat.b2n fakeNews
       else 1)
  ∧ NoDup [mode_emergency; mode_crazy; mode_fakeNews; mode_normal].
Proof.
  intros emergency crazy fakeNews. unfold modeInstructions, Js.push.
  fold emergency crazy fakeNews.
  split; [|split; [|apply mode_blocks_distinct]];
    by destruct emergency, crazy, fakeNews.
Qed.

(** C10. The instruction list is the same for two articles whose emergency,
    crazy and fakeNews flags agree, whatever their time-machine flags and
    target years are; so an article with the time-machine flag as its only
    active flag gets the normal-mode block alone. *)
Theorem modeInstructions_ignore_time_machine :
  (∀ a b : Article.t,
     Js.truthy (Article.isEmergencyMode a) = Js.truthy (Article.isEmergencyMode b) →
     Js.truthy (Article.isCrazyMode a) = Js.truthy (Article.isCrazyMode b) →
     Js.truthy (Article.isFakeNews a) = Js.truthy (Article.isFakeNews b) →
     modeInstructions a = modeInstructions b)
  ∧ (∀ a : Article.t,
       Js.truthy (Article.isTimeMachineMode a) = true →
       Js.truthy (Article.isEmergencyMode a) = false →
       Js.truthy (Article.isCrazyMode a) = false →
       Js.truthy (Article.isFakeNews a) = false →
       modeInstructions a = [mode_normal]).
Proof.
  split.
  - intros a b He Hc Hf. unfold modeInstructions. by rewrite He, Hc, Hf.
  - intros a _ He Hc Hf. unfold modeInstructions. by rewrite He, Hc, Hf.
Qed.

Lemma modeInstructions_ignore_time_machine_witness :
  modeInstructions (Fixture.withFlags true false true true "1985") =
  modeInstructions (Fixture.withFlags true false true false "2026")
  ∧ modeInstructions (Fixture.withFlags false false false true "1985") = [mode_normal].
Proof.
  split.
  - apply (proj1 modeInstructions_ignore_time_machine); reflexivity.
  - apply (proj2 modeInstructions_ignore_time_machine); reflexivity.
Defined.

(** ** Era context *)

Section EraContext.

Variable currentYear : Z.
Variable parseInt : string → Js.number.

Lemma era_off (article : Article.t) :
  Js.truthy (Article.isTimeMachineMode article) = false →
  getEraContext currentYear parseInt article = era_now
  ∧ eraContextFull currentYear parseInt article = eraFull_now.
Proof. intros H. unfold getEraContext, eraContextFull. by rewrite H. Qed.

Lemma era_on (article : Article.t) (y : Z) :
  Js.truthy (Article.isTimeMachineMode article) = true →
  targetYearOf currentYear parseInt article = Js.Num y →
  getEraContext currentYear parseInt article =
    (if (y <? 1990)%Z then era_print
     else if (y <? 2000)%Z then era_pc
     else if (y <? 2010)%Z then era_cyworld
     else if (currentYear + 5 <? y)%Z then era_future
     else era_year) (Js.Num y)
  ∧ eraContextFull currentYear parseInt article =
    (if (y <? 1990)%Z then eraFull_print
     else if (y <? 2000)%Z then eraFull_pc
     else if (y <? 2010)%Z then eraFull_cyworld
     else if (currentYear + 5 <? y)%Z then eraFull_future
     else eraFull_year) (Js.Num y).
Proof.
  intros Hon Hy. unfold getEraContext, eraContextFull. cbv zeta. rewrite Hon, Hy.
  unfold Js.gt, Js.ge, Js.lt.
  destruct (Z.ltb_spec y 1990), (Z.ltb_spec y 2000), (Z.ltb_spec y 2010),
    (Z.leb_spec 1990 y), (Z.leb_spec 2000 y), (Z.ltb_spec (currentYear + 5) y);
    simpl; (done || lia).
Qed.

(** The time-machine flag is on and [parseInt] did not find a number: the
    comparisons with [NaN] all fail and the last branch is taken. *)
Lemma era_on_NaN (article : Article.t) :
  Js.truthy (Article.isTimeMachineMode article) = true →
  targetYearOf currentYear parseInt article = Js.NaN →
  getEraContext currentYear parseInt article = era_year Js.NaN
  ∧ eraContextFull currentYear parseInt article = eraFull_year Js.NaN.
Proof.
  intros Hon Hy. unfold getEraContext, eraContextFull. cbv zeta.
  by rewrite Hon, Hy.
Qed.

End EraContext.

(** C8. The era context is a function of the time-machine flag and the
    effective year, the same in [getEraContext] and in [analyzeArticle]:
    two articles that agree on both get the same context. With the flag
    off the present-day context is selected. With the flag on: a year
    before 1990 selects the print and broadcast profile, 1990 to 1999 the
    PC-communication profile, 2000 to 2009 the early social-web profile, a
    later year above the current year plus five the future profile, and a
    later year up to the current year plus five, that year included, the
    profile of the year itself; every year is in one of these ranges.
    (From 2004 on, the current year plus five is at least 2009, and every
    year above it selects the future profile.) *)
Theorem era_bracket_selection (currentYear : Z) (parseInt : string → Js.number) :
  (∀ a b : Article.t,
     Js.truthy (Article.isTimeMachineMode a) = Js.truthy (Article.isTimeMachineMode b) →
     targetYearOf currentYear parseInt a = targetYearOf currentYear parseInt b →
     getEraContext currentYear parseInt a = getEraContext currentYear parseInt b
     ∧ eraContextFull currentYear parseInt a = eraContextFull currentYear parseInt b)
  ∧ (∀ article : Article.t,
       Js.truthy (Article.isTimeMachineMode article) = false →
       getEraContext currentYear parseInt article = era_now
       ∧ eraContextFull currentYear parseInt article = eraFull_now)
  ∧ (∀ (article : Article.t) (y : Z),
       Js.truthy (Article.isTimeMachineMode article) = true →
       targetYearOf currentYear parseInt article = Js.Num y →
       let short := getEraContext currentYear parseInt article in
       let full := eraContextFull currentYear parseInt article in
       let year := Js.Num y in
       ((y < 1990)%Z → short = era_print year ∧ full = eraFull_print year)
       ∧ ((1990 ≤ y ≤ 1999)%Z → short = era_pc year ∧ full = eraFull_pc year)
       ∧ ((2000 ≤ y ≤ 2009)%Z → short = era_cyworld year ∧ full = eraFull_cyworld year)
       ∧ ((2010 ≤ y)%Z → (currentYear + 5 < y)%Z →
            short = era_future year ∧ full = eraFull_future year)
       ∧ ((2004 ≤ currentYear)%Z → (currentYear + 5 < y)%Z →
            short = era_future year ∧ full = eraFull_future year)
       ∧ ((2010 ≤ y ≤ currentYear + 5)%Z →
            short = era_year year ∧ full = eraFull_year year)
       ∧ ((y < 1990)%Z ∨ (1990 ≤ y ≤ 1999)%Z ∨ (2000 ≤ y ≤ 2009)%Z
          ∨ (2010 ≤ y ∧ currentYear + 5 < y)%Z ∨ (2010 ≤ y ≤ currentYear + 5)%Z)).
Proof.
  split; [|split].
  - intros a b Hflag Hyear. unfold getEraContext, eraContextFull.
    cbv zeta. by rewrite Hflag, Hyear.
  - apply era_off.
  - intros article y Hon Hy short full year.
    destruct (era_on currentYear parseInt article y Hon Hy) as [Hs Hf].
    fold short in Hs. fold full in Hf. fold year in Hs, Hf. rewrite Hs, Hf.
    destruct (Z.ltb_spec y 1990), (Z.ltb_spec y 2000), (Z.ltb_spec y 2010),
      (Z.ltb_spec (currentYear + 5) y);
      repeat match goal with |- _ ∧ _ => split end; intros; (done || lia).
Qed.

Lemma era_bracket_selection_witness :
  getEraContext Fixture.currentYear Fixture.parseInt (Fixture.timeMachine "1989") =
    era_print (Js.Num 1989)
  ∧ getEraContext Fixture.currentYear Fixture.parseInt (Fixture.timeMachine "1990") =
      era_pc (Js.Num 1990)
  ∧ getEraContext Fixture.currentYear Fixture.parseInt (Fixture.timeMachine "2000") =
      era_cyworld (Js.Num 2000)
  ∧ getEraContext Fixture.currentYear Fixture.parseInt (Fixture.timeMachine "2031") =
      era_year (Js.Num 2031)
  ∧ getEraContext Fixture.currentYear Fixture.parseInt (Fixture.timeMachine "2032") =
      era_future (Js.Num 2032)
  ∧ getEraContext Fixture.currentYear Fixture.parseInt Fixture.plain = era_now
  ∧ getEraContext Fixture.currentYear Fixture.parseInt
      (Fixture.withFlags true true false true "1989") =
    getEraContext Fixture.currentYear Fixture.parseInt (Fixture.timeMachine "1989").
Proof.
  destruct (era_bracket_selection Fixture.currentYear Fixture.parseInt)
    as (Hsame & Hoff & Hon).
  pose (sel := λ y n, Hon (Fixture.timeMachine y) n eq_refl).
  destruct (sel "1989" 1989%Z eq_refl) as (H1 & _).
  destruct (sel "1990" 1990%Z eq_refl) as (_ & H2 & _).
  destruct (sel "2000" 2000%Z eq_refl) as (_ & _ & H3 & _).
  destruct (sel "2031" 2031%Z eq_refl) as (_ & _ & _ & _ & _ & H4 & _).
  destruct (sel "2032" 2032%Z eq_refl) as (_ & _ & _ & _ & H5 & _).
  refine (conj _ (conj _ (conj _ (conj _ (conj _ (conj _ _)))))).
  - apply H1. lia.
  - apply H2. lia.
  - apply H3. lia.
  - apply H4. unfold Fixture.currentYear. lia.
  - apply H5; unfold Fixture.currentYear; lia.
  - apply (Hoff Fixture.plain eq_refl).
  - apply (Hsame (Fixture.withFlags true true false true "1989")
                 (Fixture.timeMachine "1989")); reflexivity.
Defined.

Ltac distinct_texts :=
  repeat (apply NoDup_cons; split;
          [ rewrite ?elem_of_cons, elem_of_nil;
            intros H; repeat destruct H as [H|H]; try done;
            repeat apply (inj (String.app _)) in H; discriminate H
          | ]);
  apply NoDup_nil_2.

(** The five profiles of one year are different texts, in both forms. *)
Lemma era_profiles_distinct (n : Js.number) :
  NoDup [era_print n; era_pc n; era_cyworld n; era_future n; era_year n]
  ∧ NoDup [eraFull_print n; eraFull_pc n; eraFull_cyworld n; eraFull_future n;
           eraFull_year n].
Proof.
  unfold era_print, era_pc, era_cyworld, era_future, era_year,
    eraFull_print, eraFull_pc, eraFull_cyworld, eraFull_future, eraFull_year.
  split; distinct_texts.
Qed.

(** ** The two flows *)

Ltac open_decode := unfold decodeResult, decodeReplies.
Ltac open_analyze := unfold analyzeArticle, try_catch, await, resolve.
Ltac open_publish := unfold handlePublish, try_catch, await, resolve.
Ltac open_reply := unfold generateReplyReaction, try_catch, await, resolve.

Section Flows.

Variable currentYear : Z.
Variable parseInt : string → Js.number.
Variable generateContent :
  GenerateContentParameters → nat → Js.Error + GenerateContentResponse.
Variable JSON_parse_result : string → Js.Error + SimulationResult.
Variable JSON_parse_replies : string → Js.Error + list Reply.t.

Local Abbreviation analyzeTransport := (analyzeTransport currentYear parseInt generateContent).
Local Abbreviation decodeResult := (decodeResult JSON_parse_result).
Local Abbreviation analyzeArticle :=
  (analyzeArticle currentYear parseInt generateContent JSON_parse_result).
Local Abbreviation handlePublish :=
  (handlePublish currentYear parseInt generateContent JSON_parse_result).
Local Abbreviation PrimaryFailure :=
  (PrimaryFailure currentYear parseInt generateContent JSON_parse_result).
Local Abbreviation replyTransport := (replyTransport currentYear parseInt generateContent).
Local Abbreviation decodeReplies := (decodeReplies JSON_parse_replies).
Local Abbreviation generateReplyReaction :=
  (generateReplyReaction currentYear parseInt generateContent JSON_parse_replies).
Local Abbreviation ReplyFailure :=
  (ReplyFailure currentYear parseInt generateContent JSON_parse_replies).

(** What the [try] block of [analyzeArticle] does with a response. *)
Lemma decodeResult_absent response w :
  Js.truthy_str (text response) = false →
  decodeResult response w = (inl noResponseText, w).
Proof. intros H. open_decode. by rewrite H. Qed.

Lemma decodeResult_present response t w :
  text response = Some t → Js.nonempty t = true →
  decodeResult response w = (JSON_parse_result t, w).
Proof.
  intros Ht Hne. open_decode. rewrite Ht. simpl. by rewrite Hne.
Qed.

Lemma analyzeArticle_unfold article w :
  analyzeArticle article w =
  match analyzeTransport article w with
  | (inr response, w') =>
      match decodeResult response w' with
      | (inr r, w'') => (inr r, w'')
      | (inl _, w'') => (inr fallbackResult, w'')
      end
  | (inl _, w') => (inr fallbackResult, w')
  end.
Proof.
  open_analyze.
  destruct (analyzeTransport article w) as [[e|response] w']; [done|].
  by destruct (decodeResult response w') as [[e|r] w''].
Qed.

Lemma analyzeArticle_fulfils article w :
  ∃ r w', analyzeArticle article w = (inr r, w').
Proof.
  rewrite analyzeArticle_unfold.
  destruct (analyzeTransport article w) as [[e|response] w']; [eauto|].
  destruct (decodeResult response w') as [[e|r] w'']; eauto.
Qed.

Lemma analyzeArticle_failure article w w' :
  PrimaryFailure article w w' → analyzeArticle article w = (inr fallbackResult, w').
Proof.
  rewrite analyzeArticle_unfold.
  intros [e Ht | response Ht Hempty | response t e Ht Htext Hne Hparse]; rewrite Ht.
  - done.
  - by rewrite decodeResult_absent.
  - by rewrite (decodeResult_present _ t), Hparse.
Qed.

Lemma handlePublish_unfold app w :
  handlePublish app w =
  match analyzeArticle (App.article app) w with
  | (inr simulationResult, w') =>
      (inr {| App.appState := App.RESULT;
              App.article := App.article app;
              App.result := Some simulationResult;
              App.history := (App.article app, simulationResult) :: App.history app;
              App.alerts := App.alerts app |}, w')
  | (inl _, w') =>
      (inr {| App.appState := App.EDITOR;
              App.article := App.article app;
              App.result := App.result app;
              App.history := App.history app;
              App.alerts := App.alerts app ++ ["AI 시뮬레이션 중 오류가 발생했습니다."] |}, w')
  end.
Proof.
  open_publish. simpl.
  by destruct (analyzeArticle (App.article app) w) as [[e|r] w'].
Qed.

(** C1, as the code has it. Whichever way the primary flow fails (the
    transport throws after its retries or at once, the response has no
    text, the text does not decode), [analyzeArticle] does not throw: it
    returns the fixed placeholder result, whose [editorFeedback] carries
    the error text. [handlePublish] receives it as it receives any result:
    it stores it as the current result and shows the result view, without
    an alert and without going back to the editor. *)
Theorem primary_failure_yields_placeholder (app : App.t) (w w' : World) :
  PrimaryFailure (App.article app) w w' →
  analyzeArticle (App.article app) w = (inr fallbackResult, w')
  ∧ ∃ app', handlePublish app w = (inr app', w')
      ∧ App.appState app' = App.RESULT
      ∧ App.result app' = Some fallbackResult
      ∧ App.alerts app' = App.alerts app.
Proof.
  intros Hfail. apply analyzeArticle_failure in Hfail. split; [done|].
  rewrite handlePublish_unfold, Hfail. eauto.
Qed.

(** What the [try] block of [generateReplyReaction] does with a response. *)
Lemma generateReplyReaction_unfold article originalComment reporterReply w :
  generateReplyReaction article originalComment reporterReply w =
  match replyTransport article originalComment reporterReply w with
  | (inr response, w') =>
      match decodeReplies response w' with
      | (inr replies, w'') => (inr replies, w'')
      | (inl _, w'') => (inr [], w'')
      end
  | (inl _, w') => (inr [], w')
  end.
Proof.
  open_reply.
  destruct (replyTransport article originalComment reporterReply w)
    as [[e|response] w']; [done|].
  by destruct (decodeReplies response w') as [[e|r] w''].
Qed.

(** C9. [generateReplyReaction] always fulfils, whatever the service and
    [JSON.parse] do; and whichever way the sub-flow fails (the transport
    throws after its retries or at once, the response has no text, the text
    does not decode), the list it fulfils with is empty. *)
Theorem generateReplyReaction_never_throws (article : Article.t)
    (originalComment : Comment.t) (reporterReply : string) (w : World) :
  (∃ replies w',
     generateReplyReaction article originalComment reporterReply w = (inr replies, w'))
  ∧ (∀ w', ReplyFailure article originalComment reporterReply w w' →
       generateReplyReaction article originalComment reporterReply w = (inr [], w')).
Proof.
  rewrite generateReplyReaction_unfold. split.
  - destruct (replyTransport article originalComment reporterReply w)
      as [[e|response] w']; [eauto|].
    destruct (decodeReplies response w') as [[e|r] w'']; eauto.
  - intros w' [e Ht | response Ht Hempty | response t e Ht Htext Hne Hparse];
      rewrite Ht; [done | |]; open_decode.
    + by rewrite Hempty.
    + rewrite Htext. simpl. by rewrite Hne, Hparse.
Qed.

(** C4, as the code has it. Inside the [try] block of [analyzeArticle], a
    response whose text is absent or empty raises the error "No response
    text generated", and a non-empty text that [JSON.parse] rejects raises
    what [JSON.parse] throws. The [catch] of [analyzeArticle] takes both:
    when the decoding step raises, for either reason, [analyzeArticle]
    fulfils with the placeholder result. *)
Theorem decode_failures_are_absorbed (article : Article.t)
    (response : GenerateContentResponse) (w0 w : World) :
  analyzeTransport article w0 = (inr response, w) →
  (Js.truthy_str (text response) = false →
     decodeResult response w = (inl noResponseText, w)
     ∧ analyzeArticle article w0 = (inr fallbackResult, w))
  ∧ (∀ t error,
       text response = Some t → Js.nonempty t = true →
       JSON_parse_result t = inl error →
       decodeResult response w = (inl error, w)
       ∧ analyzeArticle article w0 = (inr fallbackResult, w)).
Proof.
  intros Ht. split.
  - intros Hempty. split; [by apply decodeResult_absent|].
    apply analyzeArticle_failure. by eapply primary_empty.
  - intros t error Htext Hne Hparse. split.
    + by rewrite (decodeResult_present _ t), Hparse.
    + apply analyzeArticle_failure. by eapply primary_decode.
Qed.

End Flows.

(** *** The flows on concrete services *)

Lemma primary_failure_yields_placeholder_witness :
  PrimaryFailure Fixture.currentYear Fixture.parseInt Fixture.limitedService
                 Fixture.rejectResult (App.article Fixture.editing) fresh
                 Fixture.exhausted
  ∧ analyzeArticle Fixture.currentYear Fixture.parseInt Fixture.limitedService
      Fixture.rejectResult (App.article Fixture.editing) fresh =
    (inr fallbackResult, Fixture.exhausted)
  ∧ ∃ app', handlePublish Fixture.currentYear Fixture.parseInt Fixture.limitedService
              Fixture.rejectResult Fixture.editing fresh = (inr app', Fixture.exhausted)
      ∧ App.appState app' = App.RESULT
      ∧ App.result app' = Some fallbackResult
      ∧ App.alerts app' = App.alerts Fixture.editing.
Proof.
  assert (Hfail : PrimaryFailure Fixture.currentYear Fixture.parseInt
                    Fixture.limitedService Fixture.rejectResult
                    (App.article Fixture.editing) fresh Fixture.exhausted)
    by (apply primary_transport with Fixture.tooManyRequests; reflexivity).
  split; [exact Hfail|].
  exact (primary_failure_yields_placeholder Fixture.currentYear Fixture.parseInt
           Fixture.limitedService Fixture.rejectResult Fixture.editing fresh Fixture.exhausted
           Hfail).
Defined.

(** C1, as the design document has it, fails: the service answers without
    text, and the publish handler ends in the result view, with the
    placeholder as the current result and as the first entry of the
    history, not back in the editor with nothing stored. *)
Lemma publish_failure_is_shown_and_archived :
  handlePublish Fixture.currentYear Fixture.parseInt Fixture.silentService
    Fixture.rejectResult Fixture.editing fresh =
  (inr Fixture.afterFailure, Fixture.once)
  ∧ App.appState Fixture.afterFailure ≠ App.appState Fixture.editing
  ∧ App.result Fixture.afterFailure ≠ App.result Fixture.editing
  ∧ App.history Fixture.afterFailure ≠ App.history Fixture.editing
  ∧ App.alerts Fixture.afterFailure = [].
Proof. repeat split; try reflexivity; discriminate. Qed.

Lemma generateReplyReaction_never_throws_witness :
  ReplyFailure Fixture.currentYear Fixture.parseInt Fixture.silentService
    Fixture.rejectReplies Fixture.plain Fixture.onPortal "thanks" fresh Fixture.once
  ∧ generateReplyReaction Fixture.currentYear Fixture.parseInt Fixture.silentService
      Fixture.rejectReplies Fixture.plain Fixture.onPortal "thanks" fresh =
    (inr [], Fixture.once).
Proof.
  assert (Hfail : ReplyFailure Fixture.currentYear Fixture.parseInt
                    Fixture.silentService Fixture.rejectReplies Fixture.plain
                    Fixture.onPortal "thanks" fresh Fixture.once)
    by (apply reply_empty with Fixture.noText; reflexivity).
  split; [exact Hfail|].
  exact (proj2 (generateReplyReaction_never_throws Fixture.currentYear Fixture.parseInt
                  Fixture.silentService Fixture.rejectReplies Fixture.plain
                  Fixture.onPortal "thanks" fresh) Fixture.once Hfail).
Defined.

(** The other ways the sub-flow fails, run: the retries are exhausted, the
    network is down, the text does not decode. *)
Example generateReplyReaction_degrades :
  fst (generateReplyReaction Fixture.currentYear Fixture.parseInt Fixture.limitedService
         Fixture.rejectReplies Fixture.plain Fixture.onPortal "thanks" fresh) = inr []
  ∧ fst (generateReplyReaction Fixture.currentYear Fixture.parseInt Fixture.offlineService
           Fixture.rejectReplies Fixture.plain Fixture.onPortal "thanks" fresh) = inr []
  ∧ fst (generateReplyReaction Fixture.currentYear Fixture.parseInt Fixture.garbledService
           Fixture.rejectReplies Fixture.plain Fixture.onPortal "thanks" fresh) = inr [].
Proof. repeat split. Qed.

Lemma decode_failures_are_absorbed_witness :
  (decodeResult Fixture.rejectResult Fixture.noText Fixture.once =
     (inl noResponseText, Fixture.once)
   ∧ analyzeArticle Fixture.currentYear Fixture.parseInt Fixture.silentService
       Fixture.rejectResult Fixture.plain fresh = (inr fallbackResult, Fixture.once))
  ∧ (decodeResult Fixture.rejectResult (Fixture.withText "{oops") Fixture.once =
       (inl Fixture.syntaxError, Fixture.once)
     ∧ analyzeArticle Fixture.currentYear Fixture.parseInt Fixture.garbledService
         Fixture.rejectResult Fixture.plain fresh = (inr fallbackResult, Fixture.once)).
Proof.
  split.
  - apply (proj1 (decode_failures_are_absorbed Fixture.currentYear Fixture.parseInt
                    Fixture.silentService Fixture.rejectResult Fixture.plain
                    Fixture.noText fresh Fixture.once eq_refl)).
    reflexivity.
  - apply (proj2 (decode_failures_are_absorbed Fixture.currentYear Fixture.parseInt
                    Fixture.garbledService Fixture.rejectResult Fixture.plain
                    (Fixture.withText "{oops") fresh Fixture.once eq_refl) "{oops");
      reflexivity.
Defined.

(** C4, as the design document has it, fails. A response without text and a
    response with malformed text end the same way for the caller of
    [analyzeArticle]: no failure, the same placeholder result. And a text
    that is present but empty, which [JSON.parse] rejects, raises the
    no-text error, not what [JSON.parse] throws. *)
Lemma empty_and_malformed_are_not_told_apart :
  analyzeArticle Fixture.currentYear Fixture.parseInt Fixture.silentService
    Fixture.rejectResult Fixture.plain fresh = (inr fallbackResult, Fixture.once)
  ∧ analyzeArticle Fixture.currentYear Fixture.parseInt Fixture.garbledService
      Fixture.rejectResult Fixture.plain fresh = (inr fallbackResult, Fixture.once)
  ∧ Fixture.rejectResult EmptyString = inl Fixture.syntaxError
  ∧ analyzeTransport Fixture.currentYear Fixture.parseInt Fixture.blankService
      Fixture.plain fresh = (inr {| text := Some EmptyString |}, Fixture.once)
  ∧ decodeResult Fixture.rejectResult {| text := Some EmptyString |} Fixture.once =
      (inl noResponseText, Fixture.once)
  ∧ noResponseText ≠ Fixture.syntaxError.
Proof. repeat split; try reflexivity; discriminate. Qed.

(** ** The reply panel *)

Section Reconciler.

Variable trim : string → string.
Variable article : Article.t.

Local Abbreviation handleSubmitReply := (Dashboard.handleSubmitReply trim article).
Local Abbreviation step := (Dashboard.step trim article).

(** [addReplies] rewrites the comment at position [targetCommentIdx] of the
    list it is applied to, and no other. *)
Lemma addReplies_lookup (idx : nat) (more : list Reply.t) (prev : list Comment.t)
    (i : nat) :
  Dashboard.addReplies idx more prev !! i =
  if decide (i = idx)
  then (λ c, Dashboard.withMoreReplies c more) <$> prev !! i
  else prev !! i.
Proof.
  unfold Dashboard.addReplies. rewrite list_lookup_imap.
  destruct (decide (i = idx)) as [->|Hne].
  - rewrite Nat.eqb_refl. by destruct (prev !! idx).
  - apply Nat.eqb_neq in Hne. rewrite Hne. by destruct (prev !! i).
Qed.

Lemma addReplies_length (idx : nat) (more : list Reply.t) (prev : list Comment.t) :
  length (Dashboard.addReplies idx more prev) = length prev.
Proof. apply length_imap. Qed.

(** The reply of the reporter, as [handleSubmitReply] builds it. *)
Lemma handleSubmitReply_sent (d : Dashboard.t) (idx : nat) (comment : Comment.t) :
  Js.nonempty (trim (Dashboard.replyText d)) = true →
  handleSubmitReply d idx comment =
  ({| Dashboard.localComments :=
        Dashboard.addReplies idx
          [{| Reply.username := Js.or_str (Article.author article) "기자";
              Reply.content := Dashboard.replyText d;
              Reply.likes := 0 |}]
          (Dashboard.localComments d);
      Dashboard.selectedPlatform := Dashboard.selectedPlatform d;
      Dashboard.replyingTo := None;
      Dashboard.replyText := EmptyString;
      Dashboard.generatingReplyId := Some idx |},
   Some {| Dashboard.targetCommentIdx := idx;
           Dashboard.targetComment := comment;
           Dashboard.reporterReplyText := Dashboard.replyText d |}).
Proof. intros H. unfold Dashboard.handleSubmitReply. by rewrite H. Qed.

Lemma handleSubmitReply_blank (d : Dashboard.t) (idx : nat) (comment : Comment.t) :
  Js.nonempty (trim (Dashboard.replyText d)) = false →
  handleSubmitReply d idx comment = (d, None).
Proof. intros H. unfold Dashboard.handleSubmitReply. by rewrite H. Qed.

(** With no filter selected, the displayed list is the list itself: the
    reply goes to the comment it was written for, and the other comments
    keep their replies. *)
Lemma reply_without_filter (d : Dashboard.t) (idx : nat) (comment : Comment.t) :
  Dashboard.selectedPlatform d = "ALL" →
  Dashboard.filteredComments d !! idx = Some comment →
  Js.nonempty (trim (Dashboard.replyText d)) = true →
  let d' := fst (handleSubmitReply d idx comment) in
  Dashboard.localComments d' !! idx =
    Some (Dashboard.withMoreReplies comment
            [{| Reply.username := Js.or_str (Article.author article) "기자";
                Reply.content := Dashboard.replyText d;
                Reply.likes := 0 |}])
  ∧ ∀ j, j ≠ idx → Dashboard.localComments d' !! j = Dashboard.localComments d !! j.
Proof.
  intros Hall Hidx Hne. rewrite handleSubmitReply_sent by done. simpl.
  unfold Dashboard.filteredComments in Hidx. rewrite Hall in Hidx. simpl in Hidx.
  split.
  - rewrite addReplies_lookup, decide_True by done. by rewrite Hidx.
  - intros j Hj. by rewrite addReplies_lookup, decide_False.
Qed.

(** C3, as the code has it. A submission from the open form of a displayed
    comment, with text that is not blank, is never held back: the reply is
    appended at the submitted index, a new call joins the calls in flight,
    whatever they are, and [generatingReplyId] becomes that index. When any
    call in flight settles, with any outcome, it leaves the calls in flight
    and [generatingReplyId] becomes [null]. *)
Theorem submit_is_never_held_back (s : Dashboard.Session) :
  (∀ idx comment,
     Dashboard.filteredComments (Dashboard.view s) !! idx = Some comment →
     Dashboard.replyingTo (Dashboard.view s) = Some idx →
     Js.nonempty (trim (Dashboard.replyText (Dashboard.view s))) = true →
     Dashboard.inFlight (step s (Dashboard.Submit idx)) =
       Dashboard.inFlight s ++
       [{| Dashboard.targetCommentIdx := idx;
           Dashboard.targetComment := comment;
           Dashboard.reporterReplyText := Dashboard.replyText (Dashboard.view s) |}]
     ∧ Dashboard.localComments (Dashboard.view (step s (Dashboard.Submit idx))) =
         Dashboard.addReplies idx
           [{| Reply.username := Js.or_str (Article.author article) "기자";
               Reply.content := Dashboard.replyText (Dashboard.view s);
               Reply.likes := 0 |}]
           (Dashboard.localComments (Dashboard.view s))
     ∧ Dashboard.generatingReplyId (Dashboard.view (step s (Dashboard.Submit idx))) =
         Some idx)
  ∧ (∀ k call settled,
       Dashboard.inFlight s !! k = Some call →
       Dashboard.inFlight (step s (Dashboard.Settle k settled)) =
         delete k (Dashboard.inFlight s)
       ∧ Dashboard.generatingReplyId
           (Dashboard.view (step s (Dashboard.Settle k settled))) = None).
Proof.
  split.
  - intros idx comment Hidx Hopen Hne. unfold Dashboard.step.
    rewrite Hidx, bool_decide_eq_true_2 by done.
    by rewrite handleSubmitReply_sent.
  - intros k call settled Hk. unfold Dashboard.step. rewrite Hk. simpl.
    split; [done|]. by destruct settled as [e|aiReplies].
Qed.

End Reconciler.

Lemma submit_is_never_held_back_witness :
  Dashboard.inFlight
    (Dashboard.step Fixture.trim Fixture.plain
       (Fixture.play [Dashboard.ClickReply 0; Dashboard.TypeReply "a";
                      Dashboard.Submit 0; Dashboard.ClickReply 0;
                      Dashboard.TypeReply "b"])
       (Dashboard.Submit 0)) =
  [{| Dashboard.targetCommentIdx := 0;
      Dashboard.targetComment := Fixture.onSNS;
      Dashboard.reporterReplyText := "a" |}] ++
  [{| Dashboard.targetCommentIdx := 0;
      Dashboard.targetComment := Dashboard.withMoreReplies Fixture.onSNS [Fixture.byKim "a"];
      Dashboard.reporterReplyText := "b" |}]
  ∧ Dashboard.generatingReplyId
      (Dashboard.view
         (Dashboard.step Fixture.trim Fixture.plain
            (Fixture.play [Dashboard.ClickReply 0; Dashboard.TypeReply "a";
                           Dashboard.Submit 0])
            (Dashboard.Settle 0 (inr [])))) = None.
Proof.
  split.
  - apply (proj1 (submit_is_never_held_back Fixture.trim Fixture.plain
                    (Fixture.play [Dashboard.ClickReply 0; Dashboard.TypeReply "a";
                                   Dashboard.Submit 0; Dashboard.ClickReply 0;
                                   Dashboard.TypeReply "b"]))
             0 (Dashboard.withMoreReplies Fixture.onSNS [Fixture.byKim "a"]));
      reflexivity.
  - apply (proj2 (submit_is_never_held_back Fixture.trim Fixture.plain
                    (Fixture.play [Dashboard.ClickReply 0; Dashboard.TypeReply "a";
                                   Dashboard.Submit 0]))
             0 {| Dashboard.targetCommentIdx := 0;
                  Dashboard.targetComment := Fixture.onSNS;
                  Dashboard.reporterReplyText := "a" |} (inr [])).
    reflexivity.
Defined.

(** C3, as the design document has it, fails. A second reply to the first
    comment, submitted while the call for the first reply is pending, is
    accepted: two calls for that comment are in flight, and when the second
    settles before the first, the reactions are stored in that order. And
    the pending marks of two comments are one cell: a reply to the second
    comment takes the mark from the first, and the call of the first, when
    it settles, clears the mark while the call of the second is pending. *)
Lemma second_reply_joins_pending_call :
  Dashboard.targetCommentIdx <$>
    Dashboard.inFlight
      (Fixture.play [Dashboard.ClickReply 0; Dashboard.TypeReply "a"; Dashboard.Submit 0;
                     Dashboard.ClickReply 0; Dashboard.TypeReply "b"; Dashboard.Submit 0])
  = [0; 0]
  ∧ Fixture.repliesOf
      (Fixture.play [Dashboard.ClickReply 0; Dashboard.TypeReply "a"; Dashboard.Submit 0;
                     Dashboard.ClickReply 0; Dashboard.TypeReply "b"; Dashboard.Submit 0;
                     Dashboard.Settle 1 (inr [Fixture.reaction "b"]);
                     Dashboard.Settle 0 (inr [Fixture.reaction "a"])])
    = [[Fixture.byKim "a"; Fixture.byKim "b"; Fixture.reaction "b"; Fixture.reaction "a"];
       []]
  ∧ Dashboard.generatingReplyId
      (Dashboard.view
         (Fixture.play [Dashboard.ClickReply 0; Dashboard.TypeReply "a"; Dashboard.Submit 0;
                        Dashboard.ClickReply 1; Dashboard.TypeReply "b"; Dashboard.Submit 1]))
    = Some 1
  ∧ Dashboard.generatingReplyId
      (Dashboard.view
         (Fixture.play [Dashboard.ClickReply 0; Dashboard.TypeReply "a"; Dashboard.Submit 0;
                        Dashboard.ClickReply 1; Dashboard.TypeReply "b"; Dashboard.Submit 1;
                        Dashboard.Settle 0 (inr [])]))
    = None
  ∧ Dashboard.targetCommentIdx <$>
      Dashboard.inFlight
        (Fixture.play [Dashboard.ClickReply 0; Dashboard.TypeReply "a"; Dashboard.Submit 0;
                       Dashboard.ClickReply 1; Dashboard.TypeReply "b"; Dashboard.Submit 1;
                       Dashboard.Settle 0 (inr [])])
    = [1].
Proof. repeat split. Qed.

(** C2 on the code. The panel shows the two comments; the reader selects
    the platform of the second one, so that it is displayed alone, at index
    0, and replies to it. The reply, and later the reaction generated for
    the second comment, are stored under the first comment, which is at
    index 0 of the unfiltered list; the second comment gets neither. *)
Theorem reply_under_filter_lands_on_another_comment :
  Dashboard.filteredComments
    (Dashboard.view (Fixture.play [Dashboard.ClickPlatform "Portal"])) = [Fixture.onPortal]
  ∧ Dashboard.inFlight
      (Fixture.play [Dashboard.ClickPlatform "Portal"; Dashboard.ClickReply 0;
                     Dashboard.TypeReply "thanks"; Dashboard.Submit 0])
    = [{| Dashboard.targetCommentIdx := 0;
          Dashboard.targetComment := Fixture.onPortal;
          Dashboard.reporterReplyText := "thanks" |}]
  ∧ Fixture.repliesOf
      (Fixture.play [Dashboard.ClickPlatform "Portal"; Dashboard.ClickReply 0;
                     Dashboard.TypeReply "thanks"; Dashboard.Submit 0])
    = [[Fixture.byKim "thanks"]; []]
  ∧ Fixture.repliesOf
      (Fixture.play [Dashboard.ClickPlatform "Portal"; Dashboard.ClickReply 0;
                     Dashboard.TypeReply "thanks"; Dashboard.Submit 0;
                     Dashboard.Settle 0 (inr [Fixture.reaction "thanks"])])
    = [[Fixture.byKim "thanks"; Fixture.reaction "thanks"]; []].
Proof. repeat split. Qed.

(** The same reply with no platform selected reaches the second comment. *)
Example reply_without_filter_reaches_target :
  Fixture.repliesOf
    (Fixture.play [Dashboard.ClickReply 1; Dashboard.TypeReply "thanks";
                   Dashboard.Submit 1;
                   Dashboard.Settle 0 (inr [Fixture.reaction "thanks"])])
  = [[]; [Fixture.byKim "thanks"; Fixture.reaction "thanks"]].
Proof. reflexivity. Qed.

(** * Further properties of the code *)

(** ** The transport: every run of it *)

Lemma requested_app (l k : list Event) :
  requested (l ++ k) = requested l + requested k.
Proof. induction l as [|[|ms] l IH]; simpl; lia. Qed.

Lemma waited_app (l k : list Event) : waited (l ++ k) = (waited l + waited k)%Z.
Proof. induction l as [|[|ms] l IH]; simpl; lia. Qed.

Lemma requested_retried (k : nat) (delay : Z) : requested (retried k delay) = k.
Proof. revert delay. induction k as [|k IH]; intros delay; simpl; [done|]. by rewrite IH. Qed.

Lemma waited_retried (k : nat) (delay : Z) :
  waited (retried k delay) = (delay * (2 ^ Z.of_nat k - 1))%Z.
Proof.
  revert delay. induction k as [|k IH]; intros delay; simpl waited; [simpl; lia|].
  rewrite IH, Nat2Z.inj_succ, Z.pow_succ_r by lia. lia.
Qed.

(** A call of the transport is [k] retried runs and a last run, with
    [k ≤ retries]; what the last run gave is the result. *)
Lemma retryRequest_shape {T} (outs : nat → Js.Error + T) retries delay w :
  ∃ k, k ≤ retries ∧
    retryRequest (scripted outs) retries delay w =
    (outs (attempts w + k),
     {| attempts := attempts w + S k;
        log := log w ++ retried k delay ++ [Request] |}).
Proof.
  revert delay w. induction retries as [|retries IH]; intros delay w;
    rewrite retryRequest_unfold.
  - exists 0. split; [done|]. rewrite Nat.add_0_r, Nat.add_1_r.
    by destruct (outs (attempts w)).
  - destruct (outs (attempts w)) as [e|v] eqn:Hout.
    + destruct (isRateLimit e) eqn:Hrate.
      * destruct (IH (delay * 2)%Z (afterSleep delay (afterRequest w)))
          as (k & Hk & ->).
        exists (S k). split; [lia|]. simpl.
        rewrite <- !app_assoc. simpl.
        by rewrite !Nat.add_succ_r.
      * exists 0. split; [lia|]. by rewrite Nat.add_0_r, Nat.add_1_r, Hout.
    + exists 0. split; [lia|]. by rewrite Nat.add_0_r, Nat.add_1_r, Hout.
Qed.

(** X1. Whatever the unit of work does, a call of the transport runs it
    once more than it retries: [k] runs, each followed by a wait (the first
    of [delay] ms, each next one twice as long), then a last run, with [k]
    at most [retries]; the transport returns or throws exactly what the
    last run returned or threw. *)
Theorem retryRequest_last_run_decides {T} (outs : nat → Js.Error + T)
    (retries : nat) (delay : Z) (w : World) :
  ∃ k, k ≤ retries
    ∧ fst (retryRequest (scripted outs) retries delay w) = outs (attempts w + k)
    ∧ attempts (snd (retryRequest (scripted outs) retries delay w)) = attempts w + S k
    ∧ log (snd (retryRequest (scripted outs) retries delay w)) =
        log w ++ retried k delay ++ [Request]
    ∧ requested (log (snd (retryRequest (scripted outs) retries delay w))) =
        requested (log w) + S k.
Proof.
  destruct (retryRequest_shape outs retries delay w) as (k & Hk & ->).
  exists k. simpl. repeat split; [done|].
  rewrite !requested_app, requested_retried. simpl. lia.
Qed.

Lemma retryRequest_cost {T} (outs : nat → Js.Error + T) retries delay w :
  (0 ≤ delay)%Z →
  (waited (log (snd (retryRequest (scripted outs) retries delay w)))
     ≤ waited (log w) + delay * (2 ^ Z.of_nat retries - 1))%Z
  ∧ attempts (snd (retryRequest (scripted outs) retries delay w))
      ≤ attempts w + S retries.
Proof.
  intros Hd. destruct (retryRequest_shape outs retries delay w) as (k & Hk & ->).
  simpl. split; [|lia].
  rewrite !waited_app, waited_retried. simpl.
  assert (2 ^ Z.of_nat k ≤ 2 ^ Z.of_nat retries)%Z by (apply Z.pow_le_mono_r; lia).
  nia.
Qed.

(** X2. With a delay that is not negative, a call of the transport waits
    at most [delay * (2 ^ retries - 1)] ms in all, and makes at most
    [retries + 1] requests; with the defaults, at most 14000 ms and 4
    requests. *)
Theorem retryRequest_cost_is_bounded {T} (outs : nat → Js.Error + T)
    (retries : nat) (delay : Z) (w : World) :
  (0 ≤ delay)%Z →
  (waited (log (snd (retryRequest (scripted outs) retries delay w)))
     ≤ waited (log w) + delay * (2 ^ Z.of_nat retries - 1))%Z
  ∧ attempts (snd (retryRequest (scripted outs) retries delay w))
      ≤ attempts w + S retries
  ∧ (waited (log (snd (retryRequest (scripted outs) default_retries default_delay w)))
       ≤ waited (log w) + 14000)%Z
  ∧ attempts (snd (retryRequest (scripted outs) default_retries default_delay w))
      ≤ attempts w + 4.
Proof.
  intros Hdelay.
  destruct (retryRequest_cost outs retries delay w Hdelay) as [H1 H2].
  destruct (retryRequest_cost outs default_retries default_delay w) as [H3 H4];
    [unfold default_delay; lia|].
  repeat split; try done.
Qed.

Lemma retryRequest_cost_is_bounded_witness :
  (waited (log (snd (retryRequest (scripted Fixture.alwaysLimited) 3 2000 fresh)))
     ≤ waited (log fresh) + 2000 * (2 ^ Z.of_nat 3 - 1))%Z
  ∧ attempts (snd (retryRequest (scripted Fixture.alwaysLimited) 3 2000 fresh))
      ≤ attempts fresh + 4.
Proof.
  destruct (retryRequest_cost_is_bounded Fixture.alwaysLimited 3 2000 fresh)
    as (H1 & H2 & _); [lia|].
  split; [exact H1 | exact H2].
Defined.

(** X3. The first success ends the call. If the next [k] runs fail with a
    rate-limit signal, [k] is within the retries, and the run after them
    succeeds, the transport returns that success, after [k + 1] runs and
    [k] waits that double from [delay]. *)
Theorem retryRequest_first_success {T} (outs : nat → Js.Error + T)
    (retries k : nat) (delay : Z) (w : World) (v : T) :
  k ≤ retries →
  (∀ i, i < k → ∃ e, outs (attempts w + i) = inl e ∧ isRateLimit e = true) →
  outs (attempts w + k) = inr v →
  retryRequest (scripted outs) retries delay w =
  (inr v, {| attempts := attempts w + S k;
             log := log w ++ retried k delay ++ [Request] |}).
Proof.
  revert retries delay w. induction k as [|k IH]; intros retries delay w Hk Hfail Hok.
  - rewrite Nat.add_0_r in Hok. rewrite (retryRequest_success _ _ _ _ v) by done.
    unfold afterRequest. by rewrite Nat.add_1_r.
  - destruct retries as [|retries]; [lia|].
    destruct (Hfail 0) as (e & He & Hrate); [lia|]. rewrite Nat.add_0_r in He.
    rewrite (retryRequest_retry _ _ _ _ e) by done.
    rewrite (IH retries (delay * 2)%Z (afterSleep delay (afterRequest w))).
    + simpl. rewrite <- !app_assoc. simpl. by rewrite !Nat.add_succ_r.
    + lia.
    + intros i Hi. simpl. destruct (Hfail (S i)) as (e' & He' & Hrate'); [lia|].
      exists e'. split; [|done]. by rewrite Nat.add_succ_r in He'.
    + simpl. by rewrite Nat.add_succ_r in Hok.
Qed.

Lemma retryRequest_first_success_witness :
  retryRequest (scripted Sample.onceLimited) 5 100 fresh =
  (inr "done", {| attempts := 2; log := [Request; Sleep 100; Request] |}).
Proof.
  apply (retryRequest_first_success Sample.onceLimited 5 1 100 fresh "done").
  - lia.
  - intros i Hi. exists Fixture.tooManyRequests.
    destruct i as [|i]; [split; reflexivity | lia].
  - reflexivity.
Defined.

(** X4. The retries run out. If the next [retries + 1] runs all fail with
    a rate-limit signal, the transport throws the failure of the last of
    them, after [retries] waits that double from [delay]; the failures
    before the last one are not reported. *)
Theorem retryRequest_gives_up {T} (outs : nat → Js.Error + T)
    (retries : nat) (delay : Z) (w : World) :
  (∀ i, i ≤ retries → ∃ e, outs (attempts w + i) = inl e ∧ isRateLimit e = true) →
  ∃ e, outs (attempts w + retries) = inl e
    ∧ retryRequest (scripted outs) retries delay w =
      (inl e, {| attempts := attempts w + S retries;
                 log := log w ++ retried retries delay ++ [Request] |}).
Proof.
  revert delay w. induction retries as [|retries IH]; intros delay w Hfail.
  - destruct (Hfail 0) as (e & He & _); [lia|]. exists e. split; [done|].
    rewrite Nat.add_0_r in He. rewrite (retryRequest_exhausted _ _ _ e) by done.
    unfold afterRequest. by rewrite Nat.add_1_r.
  - destruct (Hfail 0) as (e & He & Hrate); [lia|]. rewrite Nat.add_0_r in He.
    rewrite (retryRequest_retry _ _ _ _ e) by done.
    destruct (IH (delay * 2)%Z (afterSleep delay (afterRequest w))) as (e' & He' & ->).
    + intros i Hi. simpl. destruct (Hfail (S i)) as (e' & He' & Hrate'); [lia|].
      exists e'. split; [|done]. by rewrite Nat.add_succ_r in He'.
    + exists e'. simpl in *. split.
      * by rewrite Nat.add_succ_r.
      * rewrite <- !app_assoc. simpl. by rewrite !Nat.add_succ_r.
Qed.

Lemma retryRequest_gives_up_witness :
  ∃ e, Fixture.alwaysLimited (attempts fresh + 1) = inl e
    ∧ retryRequest (scripted Fixture.alwaysLimited) 1 500 fresh =
      (inl e, {| attempts := attempts fresh + 2;
                 log := log fresh ++ retried 1 500 ++ [Request] |}).
Proof.
  apply (retryRequest_gives_up Fixture.alwaysLimited 1 500 fresh).
  intros i _. exists Fixture.tooManyRequests. split; reflexivity.
Defined.

(** ** The two flows: every run of them *)

Ltac open_transport := unfold analyzeTransport, replyTransport.

Section FlowsMore.

Variable currentYear : Z.
Variable parseInt : string → Js.number.
Variable generateContent :
  GenerateContentParameters → nat → Js.Error + GenerateContentResponse.
Variable JSON_parse_result : string → Js.Error + SimulationResult.
Variable JSON_parse_replies : string → Js.Error + list Reply.t.

Local Abbreviation analyzeTransport :=
  (analyzeTransport currentYear parseInt generateContent).
Local Abbreviation analyzeArticle :=
  (analyzeArticle currentYear parseInt generateContent JSON_parse_result).
Local Abbreviation handlePublish :=
  (handlePublish currentYear parseInt generateContent JSON_parse_result).
Local Abbreviation replyTransport := (replyTransport currentYear parseInt generateContent).
Local Abbreviation generateReplyReaction :=
  (generateReplyReaction currentYear parseInt generateContent JSON_parse_replies).

(** Decoding does not touch the event loop. *)
Lemma decodeResult_world response w :
  snd (decodeResult JSON_parse_result response w) = w.
Proof. unfold decodeResult, settle, throw. by destruct (Js.truthy_str (text response)). Qed.

Lemma decodeReplies_world response w :
  snd (decodeReplies JSON_parse_replies response w) = w.
Proof. unfold decodeReplies, settle, resolve. by destruct (Js.truthy_str (text response)). Qed.

Lemma analyzeArticle_world article w :
  snd (analyzeArticle article w) = snd (analyzeTransport article w).
Proof.
  rewrite analyzeArticle_unfold.
  destruct (analyzeTransport article w) as [[e|response] w']; [done|].
  pose proof (decodeResult_world response w') as Hw.
  by destruct (decodeResult JSON_parse_result response w') as [[e|r] w''].
Qed.

Lemma generateReplyReaction_world article originalComment reporterReply w :
  snd (generateReplyReaction article originalComment reporterReply w) =
  snd (replyTransport article originalComment reporterReply w).
Proof.
  rewrite generateReplyReaction_unfold.
  destruct (replyTransport article originalComment reporterReply w)
    as [[e|response] w']; [done|].
  pose proof (decodeReplies_world response w') as Hw.
  by destruct (decodeReplies JSON_parse_replies response w') as [[e|r] w''].
Qed.

(** X5. Whatever the service answers, one call of [analyzeArticle] and one
    call of [generateReplyReaction] each make at least one and at most four
    requests and wait at most 14000 ms in all. *)
Theorem flows_cost_is_bounded (article : Article.t) (originalComment : Comment.t)
    (reporterReply : string) (w : World) :
  (attempts w < attempts (snd (analyzeArticle article w)) ≤ attempts w + 4
   ∧ (waited (log (snd (analyzeArticle article w))) ≤ waited (log w) + 14000)%Z)
  ∧ (attempts w
       < attempts (snd (generateReplyReaction article originalComment reporterReply w))
       ≤ attempts w + 4
     ∧ (waited (log (snd (generateReplyReaction article originalComment
                            reporterReply w)))
          ≤ waited (log w) + 14000)%Z).
Proof.
  rewrite analyzeArticle_world, generateReplyReaction_world. open_transport.
  split.
  - destruct (retryRequest_cost (generateContent (analyzeRequest currentYear parseInt
                article)) default_retries default_delay w) as [Hw Ha];
      [unfold default_delay; lia|].
    destruct (retryRequest_shape (generateContent (analyzeRequest currentYear parseInt
                article)) default_retries default_delay w) as (k & Hk & Heq).
    rewrite Heq in *. simpl in *. unfold default_retries, default_delay in *.
    repeat split; lia.
  - destruct (retryRequest_cost (generateContent (replyRequest currentYear parseInt
                article originalComment reporterReply))
                default_retries default_delay w) as [Hw Ha];
      [unfold default_delay; lia|].
    destruct (retryRequest_shape (generateContent (replyRequest currentYear parseInt
                article originalComment reporterReply))
                default_retries default_delay w) as (k & Hk & Heq).
    rewrite Heq in *. simpl in *. unfold default_retries, default_delay in *.
    repeat split; lia.
Qed.

(** X6. [handlePublish] always ends in the result view and always archives:
    whatever the service and [JSON.parse] do, it fulfils with the article
    unchanged, the result that [analyzeArticle] returned as the current
    result, one new entry (the article with that result) in front of the
    history, and no alert; the branch that alerts and returns to the editor
    is never taken. *)
Theorem handlePublish_always_archives (app : App.t) (w : World) :
  ∃ r w',
    analyzeArticle (App.article app) w = (inr r, w')
    ∧ handlePublish app w =
      (inr {| App.appState := App.RESULT;
              App.article := App.article app;
              App.result := Some r;
              App.history := (App.article app, r) :: App.history app;
              App.alerts := App.alerts app |}, w').
Proof.
  destruct (analyzeArticle_fulfils currentYear parseInt generateContent
              JSON_parse_result (App.article app) w) as (r & w' & Hr).
  exists r, w'. split; [done|]. by rewrite handlePublish_unfold, Hr.
Qed.

(** X7. [analyzeArticle] returns the decoded result when the transport
    returns a response with a non-empty text that [JSON.parse] accepts; and
    it never returns anything else than such a decoded result or the
    placeholder. *)
Theorem analyzeArticle_decoded_or_placeholder (article : Article.t) (w : World) :
  (∀ response t r w',
     analyzeTransport article w = (inr response, w') →
     text response = Some t → Js.nonempty t = true →
     JSON_parse_result t = inr r →
     analyzeArticle article w = (inr r, w'))
  ∧ (∀ r w',
       analyzeArticle article w = (inr r, w') →
       r = fallbackResult
       ∨ ∃ response t,
           analyzeTransport article w = (inr response, w')
           ∧ text response = Some t ∧ Js.nonempty t = true
           ∧ JSON_parse_result t = inr r).
Proof.
  split.
  - intros response t r w' Ht Htext Hne Hparse.
    by rewrite analyzeArticle_unfold, Ht,
      (decodeResult_present JSON_parse_result _ t), Hparse.
  - intros r w'. rewrite analyzeArticle_unfold.
    destruct (analyzeTransport article w) as [[e|response] w1]; [by left; simplify_eq|].
    unfold decodeResult, settle, throw.
    destruct (text response) as [t|] eqn:Htext; simpl; [|by left; simplify_eq].
    destruct (Js.nonempty t) eqn:Hne; [|by left; simplify_eq].
    destruct (JSON_parse_result t) as [e|r'] eqn:Hparse; [by left; simplify_eq|].
    intros [= <- <-]. right. by exists response, t.
Qed.

(** X8. [generateReplyReaction] returns the decoded replies when the
    transport returns a response with a non-empty text that [JSON.parse]
    accepts; and it never returns anything else than such a decoded list
    or the empty list. *)
Theorem generateReplyReaction_decoded_or_empty (article : Article.t)
    (originalComment : Comment.t) (reporterReply : string) (w : World) :
  (∀ response t replies w',
     replyTransport article originalComment reporterReply w = (inr response, w') →
     text response = Some t → Js.nonempty t = true →
     JSON_parse_replies t = inr replies →
     generateReplyReaction article originalComment reporterReply w = (inr replies, w'))
  ∧ (∀ replies w',
       generateReplyReaction article originalComment reporterReply w = (inr replies, w') →
       replies = []
       ∨ ∃ response t,
           replyTransport article originalComment reporterReply w = (inr response, w')
           ∧ text response = Some t ∧ Js.nonempty t = true
           ∧ JSON_parse_replies t = inr replies).
Proof.
  split.
  - intros response t replies w' Ht Htext Hne Hparse.
    rewrite generateReplyReaction_unfold, Ht. unfold decodeReplies, settle.
    rewrite Htext. simpl. by rewrite Hne, Hparse.
  - intros replies w'. rewrite generateReplyReaction_unfold.
    destruct (replyTransport article originalComment reporterReply w)
      as [[e|response] w1]; [by left; simplify_eq|].
    unfold decodeReplies, settle, resolve.
    destruct (text response) as [t|] eqn:Htext; simpl; [|by left; simplify_eq].
    destruct (Js.nonempty t) eqn:Hne; [|by left; simplify_eq].
    destruct (JSON_parse_replies t) as [e|r'] eqn:Hparse; [by left; simplify_eq|].
    intros [= <- <-]. right. by exists response, t.
Qed.

End FlowsMore.

Lemma analyzeArticle_decoded_or_placeholder_witness :
  analyzeArticle Fixture.currentYear Fixture.parseInt Sample.answering
    Sample.acceptResult Fixture.plain fresh = (inr Sample.report, Fixture.once)
  ∧ (fallbackResult = fallbackResult
     ∨ ∃ response t,
         analyzeTransport Fixture.currentYear Fixture.parseInt Fixture.silentService
           Fixture.plain fresh = (inr response, Fixture.once)
         ∧ text response = Some t ∧ Js.nonempty t = true
         ∧ Fixture.rejectResult t = inr fallbackResult).
Proof.
  split.
  - apply (proj1 (analyzeArticle_decoded_or_placeholder Fixture.currentYear
                    Fixture.parseInt Sample.answering Sample.acceptResult
                    Fixture.plain fresh)
             (Fixture.withText "{...}") "{...}"); reflexivity.
  - apply (proj2 (analyzeArticle_decoded_or_placeholder Fixture.currentYear
                    Fixture.parseInt Fixture.silentService Fixture.rejectResult
                    Fixture.plain fresh)).
    reflexivity.
Defined.

Lemma generateReplyReaction_decoded_or_empty_witness :
  generateReplyReaction Fixture.currentYear Fixture.parseInt Sample.answering
    Sample.acceptReplies Fixture.plain Fixture.onPortal "thanks" fresh =
  (inr [Fixture.reaction "thanks"], Fixture.once)
  ∧ (@nil Reply.t = []
     ∨ ∃ response t,
         replyTransport Fixture.currentYear Fixture.parseInt Fixture.garbledService
           Fixture.plain Fixture.onPortal "thanks" fresh = (inr response, Fixture.once)
         ∧ text response = Some t ∧ Js.nonempty t = true
         ∧ Fixture.rejectReplies t = inr (@nil Reply.t)).
Proof.
  split.
  - apply (proj1 (generateReplyReaction_decoded_or_empty Fixture.currentYear
                    Fixture.parseInt Sample.answering Sample.acceptReplies
                    Fixture.plain Fixture.onPortal "thanks" fresh)
             (Fixture.withText "{...}") "{...}"); reflexivity.
  - apply (proj2 (generateReplyReaction_decoded_or_empty Fixture.currentYear
                    Fixture.parseInt Fixture.garbledService Fixture.rejectReplies
                    Fixture.plain Fixture.onPortal "thanks" fresh)).
    reflexivity.
Defined.

(** ** What the requests carry *)

Lemma str_app_assoc (a b c : string) : (a +:+ b) +:+ c = a +:+ b +:+ c.
Proof. induction a as [|x a IH]; [done|]. by rewrite !app_String, IH. Qed.

Lemma str_app_nil_r (a : string) : a +:+ EmptyString = a.
Proof. induction a as [|x a IH]; [done|]. by rewrite app_String, IH. Qed.

Lemma includes_head (x rest : string) : Js.includes (x +:+ rest) x = true.
Proof. apply includes_true_iff. by exists EmptyString, rest. Qed.

Lemma includes_refl (x : string) : Js.includes x x = true.
Proof. apply includes_true_iff. exists EmptyString, EmptyString. by rewrite str_app_nil_r. Qed.

Lemma includes_skip (s t x : string) :
  Js.includes t x = true → Js.includes (s +:+ t) x = true.
Proof.
  rewrite !includes_true_iff. intros (pre & post & ->).
  exists (s +:+ pre), post. by rewrite str_app_assoc.
Qed.

Lemma includes_trans (s t x : string) :
  Js.includes s t = true → Js.includes t x = true → Js.includes s x = true.
Proof.
  rewrite !includes_true_iff. intros (pre & post & ->) (pre' & post' & ->).
  exists (pre +:+ pre'), (post' +:+ post). by rewrite !str_app_assoc.
Qed.

Lemma includes_join (l : list string) (sep x : string) :
  x ∈ l → Js.includes (Js.join l sep) x = true.
Proof.
  unfold Js.join. induction l as [|y l IH]; [by intros ?%elem_of_nil|].
  intros [->|Hin]%elem_of_cons.
  - destruct l as [|z l]; [apply includes_refl | apply includes_head].
  - destruct l as [|z l]; [by apply elem_of_nil in Hin|].
    change (String.concat sep (y :: z :: l))
      with (y +:+ sep +:+ String.concat sep (z :: l)).
    apply includes_skip, includes_skip, IH, Hin.
Qed.

Ltac find_part := repeat first [apply includes_head | apply includes_skip].

Lemma prompt_includes_previous_context (currentYear : Z)
    (parseInt : string → Js.number) (article : Article.t) (c : string) :
  Article.previousArticleContext article = Some c → Js.nonempty c = true →
  Js.includes (prompt currentYear parseInt article) c = true.
Proof.
  intros Hc Hne. apply includes_trans with (previousContext article).
  - unfold prompt, prompt_text. find_part.
  - unfold previousContext. rewrite Hc, Hne.
    unfold previousContext_text. find_part.
Qed.

(** X9. The prompt of [analyzeArticle] contains the era context of the
    article, every block of its mode instructions, its title, category,
    content and author, and, when the article carries a non-empty previous
    context, that context. *)
Theorem prompt_carries_the_article (currentYear : Z) (parseInt : string → Js.number)
    (article : Article.t) :
  let prompt := prompt currentYear parseInt article in
  Js.includes prompt (eraContextFull currentYear parseInt article) = true
  ∧ (∀ block, block ∈ modeInstructions article → Js.includes prompt block = true)
  ∧ Js.includes prompt (Article.title article) = true
  ∧ Js.includes prompt (Article.categoryText (Article.category article)) = true
  ∧ Js.includes prompt (Article.content article) = true
  ∧ Js.includes prompt (Article.author article) = true
  ∧ (∀ c, Article.previousArticleContext article = Some c → Js.nonempty c = true →
       Js.includes prompt c = true).
Proof.
  unfold prompt, prompt_text.
  set (era := eraContextFull currentYear parseInt article).
  set (prev := previousContext article).
  set (modes := modeInstructions article).
  cbv zeta. repeat match goal with |- _ ∧ _ => split end.
  - find_part.
  - intros block Hin. apply includes_trans with (Js.join modes Js.nl).
    + find_part.
    + by apply includes_join.
  - find_part.
  - find_part.
  - find_part.
  - find_part.
  - intros c Hc Hne.
    by apply (prompt_includes_previous_context currentYear parseInt article c).
Qed.

Lemma prompt_carries_the_article_witness :
  Js.includes (prompt Fixture.currentYear Fixture.parseInt Sample.wild) mode_crazy = true
  ∧ Js.includes (prompt Fixture.currentYear Fixture.parseInt Sample.wild)
      (eraFull_print (Js.Num 1985)) = true.
Proof.
  destruct (prompt_carries_the_article Fixture.currentYear Fixture.parseInt Sample.wild)
    as (Hera & Hmodes & _).
  split.
  - apply Hmodes. apply (bool_decide_unpack _). by vm_compute.
  - exact Hera.
Defined.

(** X10. The prompt of [generateReplyReaction] contains the era context
    that [getEraContext] gives for the article, the title of the article,
    the username, content and platform of the comment replied to, and the
    reply of the reporter. *)
Theorem reply_prompt_carries_the_thread (currentYear : Z)
    (parseInt : string → Js.number) (article : Article.t)
    (originalComment : Comment.t) (reporterReply : string) :
  let prompt :=
    contents (replyRequest currentYear parseInt article originalComment reporterReply) in
  Js.includes prompt (getEraContext currentYear parseInt article) = true
  ∧ Js.includes prompt (Article.title article) = true
  ∧ Js.includes prompt (Comment.username originalComment) = true
  ∧ Js.includes prompt (Comment.content originalComment) = true
  ∧ Js.includes prompt (Comment.platform originalComment) = true
  ∧ Js.includes prompt reporterReply = true.
Proof.
  unfold replyRequest, reply_prompt_text. simpl contents.
  set (era := getEraContext currentYear parseInt article).
  cbv zeta. repeat match goal with |- _ ∧ _ => split end; find_part.
Qed.

(** ** Era context: target years that are missing or not numbers *)

(** X11. With the time-machine flag on and the target year missing or
    empty, [parseInt] is not consulted and the current year stands in: from
    2010 on, both forms of the era context are the profile of the current
    year itself, not the present-day context of an article with the flag
    off. *)
Theorem era_without_target_year (currentYear : Z) (parseInt : string → Js.number)
    (article : Article.t) :
  Js.truthy (Article.isTimeMachineMode article) = true →
  Js.truthy_str (Article.targetYear article) = false →
  (2010 ≤ currentYear)%Z →
  targetYearOf currentYear parseInt article = Js.Num currentYear
  ∧ getEraContext currentYear parseInt article = era_year (Js.Num currentYear)
  ∧ eraContextFull currentYear parseInt article = eraFull_year (Js.Num currentYear).
Proof.
  intros Hon Hyear Hclock.
  assert (Hy : targetYearOf currentYear parseInt article = Js.Num currentYear).
  { unfold targetYearOf. by rewrite Hon, Hyear. }
  split; [done|].
  destruct (era_on currentYear parseInt article currentYear Hon Hy) as [-> ->].
  destruct (Z.ltb_spec currentYear 1990), (Z.ltb_spec currentYear 2000),
    (Z.ltb_spec currentYear 2010), (Z.ltb_spec (currentYear + 5) currentYear);
    (done || lia).
Qed.

Lemma era_without_target_year_witness :
  targetYearOf Fixture.currentYear Fixture.parseInt (Fixture.timeMachine EmptyString) =
    Js.Num Fixture.currentYear
  ∧ getEraContext Fixture.currentYear Fixture.parseInt (Fixture.timeMachine EmptyString) =
      era_year (Js.Num Fixture.currentYear)
  ∧ eraContextFull Fixture.currentYear Fixture.parseInt
      (Fixture.timeMachine EmptyString) = eraFull_year (Js.Num Fixture.currentYear).
Proof.
  apply (era_without_target_year Fixture.currentYear Fixture.parseInt
           (Fixture.timeMachine EmptyString)); [reflexivity | reflexivity |].
  unfold Fixture.currentYear. lia.
Defined.

(** X12. With the time-machine flag on and a target year in which
    [parseInt] finds no number, every comparison fails and the last branch
    is taken: the short context is the year profile with the text NaN
    where the year should be, and the long context is the year profile of
    NaN as well. *)
Theorem era_of_unparsable_year (currentYear : Z) (parseInt : string → Js.number)
    (article : Article.t) (year : string) :
  Js.truthy (Article.isTimeMachineMode article) = true →
  Article.targetYear article = Some year → Js.nonempty year = true →
  parseInt year = Js.NaN →
  getEraContext currentYear parseInt article = "NaN년도의 시대상을 반영하세요."
  ∧ eraContextFull currentYear parseInt article = eraFull_year Js.NaN.
Proof.
  intros Hon Hyear Hne Hnan.
  apply (era_on_NaN currentYear parseInt article Hon).
  unfold targetYearOf. rewrite Hon, Hyear. simpl. by rewrite Hne, Hnan.
Qed.

Lemma era_of_unparsable_year_witness :
  getEraContext Fixture.currentYear Fixture.parseInt (Fixture.timeMachine "long ago") =
    "NaN년도의 시대상을 반영하세요."
  ∧ eraContextFull Fixture.currentYear Fixture.parseInt (Fixture.timeMachine "long ago") =
      eraFull_year Js.NaN.
Proof.
  apply (era_of_unparsable_year Fixture.currentYear Fixture.parseInt
           (Fixture.timeMachine "long ago") "long ago"); reflexivity.
Defined.

(** ** [App.tsx]: the secret click, the PIN, reset, follow-up, history *)

Lemma modeInstructions_of_flags (article : Article.t) :
  modeInstructions article =
  if Js.truthy (Article.isEmergencyMode article)
     || Js.truthy (Article.isCrazyMode article)
     || Js.truthy (Article.isFakeNews article)
  then (if Js.truthy (Article.isEmergencyMode article) then [mode_emergency] else []) ++
       (if Js.truthy (Article.isCrazyMode article) then [mode_crazy] else []) ++
       (if Js.truthy (Article.isFakeNews article) then [mode_fakeNews] else [])
  else [mode_normal].
Proof.
  unfold modeInstructions, Js.push.
  by destruct (Js.truthy (Article.isEmergencyMode article)),
    (Js.truthy (Article.isCrazyMode article)), (Js.truthy (Article.isFakeNews article)).
Qed.

Lemma mode_blocks_apart :
  mode_emergency ≠ mode_crazy ∧ mode_emergency ≠ mode_fakeNews
  ∧ mode_emergency ≠ mode_normal ∧ mode_crazy ≠ mode_fakeNews
  ∧ mode_crazy ≠ mode_normal ∧ mode_fakeNews ≠ mode_normal.
Proof.
  pose proof mode_blocks_distinct as Hdistinct.
  apply NoDup_cons in Hdistinct as [Hec Hdistinct].
  apply NoDup_cons in Hdistinct as [Hcf Hdistinct].
  apply NoDup_cons in Hdistinct as [Hfn _].
  apply not_elem_of_cons in Hec as [? Hec]. apply not_elem_of_cons in Hec as [? Hec].
  apply not_elem_of_cons in Hec as [? _].
  apply not_elem_of_cons in Hcf as [? Hcf]. apply not_elem_of_cons in Hcf as [? _].
  apply not_elem_of_cons in Hfn as [? _].
  done.
Qed.

(** X13. The title button counts clicks modulo four: starting from a count
    below four, after [n] clicks the count is the old count plus [n],
    modulo 4, and the PIN dialog is open if it was open before or the
    clicks have reached four in all; nothing else changes. *)
Theorem secret_clicks_count_to_four (s : Shell.t) (n : nat) :
  Shell.secretClickCount s ≤ 3 →
  Shell.secretClickCount (Nat.iter n Shell.handleSecretClick s) =
    (Shell.secretClickCount s + n) mod 4
  ∧ Shell.showPinModal (Nat.iter n Shell.handleSecretClick s) =
      Shell.showPinModal s || (4 <=? Shell.secretClickCount s + n)%nat
  ∧ Shell.app (Nat.iter n Shell.handleSecretClick s) = Shell.app s
  ∧ Shell.pinInput (Nat.iter n Shell.handleSecretClick s) = Shell.pinInput s
  ∧ Shell.showHistory (Nat.iter n Shell.handleSecretClick s) = Shell.showHistory s.
Proof.
  intros Hc. induction n as [|n (IHc & IHm & IHa & IHp & IHh)].
  - cbn [Nat.iter]. rewrite Nat.add_0_r, Nat.mod_small by lia.
    replace (4 <=? Shell.secretClickCount s)%nat with false
      by (symmetry; apply Nat.leb_gt; lia).
    by rewrite orb_false_r.
  - simpl Nat.iter. set (s' := Nat.iter n Shell.handleSecretClick s) in *.
    assert (Hlt : (Shell.secretClickCount s + n) mod 4 < 4)
      by (apply Nat.mod_upper_bound; lia).
    assert (Hstep : (Shell.secretClickCount s + S n) mod 4 =
                    if (4 <=? Shell.secretClickCount s' + 1)%nat then 0
                    else Shell.secretClickCount s' + 1).
    { rewrite IHc.
      pose proof (Nat.div_mod_eq (Shell.secretClickCount s + n) 4) as Hd.
      destruct (Nat.leb_spec 4 ((Shell.secretClickCount s + n) mod 4 + 1)).
      - symmetry. apply (Nat.mod_unique _ 4 (S ((Shell.secretClickCount s + n) / 4)));
          lia.
      - symmetry. apply (Nat.mod_unique _ 4 ((Shell.secretClickCount s + n) / 4)); lia. }
    unfold Shell.handleSecretClick. rewrite Hstep. cbv zeta.
    cbn [Shell.secretClickCount Shell.setSecretClickCount].
    destruct (Nat.leb_spec 4 (Shell.secretClickCount s' + 1)) as [Hfour|Hless];
      cbn [Shell.secretClickCount Shell.showPinModal Shell.app Shell.pinInput
           Shell.showHistory Shell.setSecretClickCount Shell.setShowPinModal].
    + repeat split; try done.
      pose proof (Nat.div_mod_eq (Shell.secretClickCount s + n) 4).
      replace (4 <=? Shell.secretClickCount s + S n)%nat with true
        by (symmetry; apply Nat.leb_le; lia).
      by rewrite orb_true_r.
    + repeat split; try done. rewrite IHm. f_equal.
      pose proof (Nat.div_mod_eq (Shell.secretClickCount s + n) 4).
      destruct (Nat.leb_spec 4 (Shell.secretClickCount s + n)),
        (Nat.leb_spec 4 (Shell.secretClickCount s + S n)); try done; lia.
Qed.

Lemma secret_clicks_count_to_four_witness :
  Shell.secretClickCount
    (Nat.iter 4 Shell.handleSecretClick (Sample.shell Fixture.plain EmptyString)) =
    (0 + 4) mod 4
  ∧ Shell.showPinModal
      (Nat.iter 3 Shell.handleSecretClick
         (Shell.setShowPinModal false (Sample.shell Fixture.plain EmptyString))) =
      false || (4 <=? 0 + 3)%nat.
Proof.
  split.
  - apply (secret_clicks_count_to_four (Sample.shell Fixture.plain EmptyString) 4).
    simpl. lia.
  - apply (secret_clicks_count_to_four
             (Shell.setShowPinModal false (Sample.shell Fixture.plain EmptyString)) 3).
    simpl. lia.
Defined.

(** X14. Whatever is typed, submitting the PIN dialog closes it, empties
    the input and shows exactly one alert; it leaves the view, the result
    and the history alone; of the article it can change mode flags only;
    and it never turns the fake-news or the time-machine flag on. *)
Theorem handlePinSubmit_frame (s : Shell.t) :
  let before := App.article (Shell.app s) in
  let after := App.article (Shell.app (Shell.handlePinSubmit s)) in
  Shell.showPinModal (Shell.handlePinSubmit s) = false
  ∧ Shell.pinInput (Shell.handlePinSubmit s) = EmptyString
  ∧ (∃ msg, App.alerts (Shell.app (Shell.handlePinSubmit s)) =
            App.alerts (Shell.app s) ++ [msg])
  ∧ App.appState (Shell.app (Shell.handlePinSubmit s)) = App.appState (Shell.app s)
  ∧ App.result (Shell.app (Shell.handlePinSubmit s)) = App.result (Shell.app s)
  ∧ App.history (Shell.app (Shell.handlePinSubmit s)) = App.history (Shell.app s)
  ∧ (Article.title after, Article.category after, Article.content after,
     Article.author after, Article.timestamp after, Article.targetYear after,
     Article.previousArticleContext after) =
    (Article.title before, Article.category before, Article.content before,
     Article.author before, Article.timestamp before, Article.targetYear before,
     Article.previousArticleContext before)
  ∧ (Js.truthy (Article.isFakeNews after) = true →
     Js.truthy (Article.isFakeNews before) = true)
  ∧ (Js.truthy (Article.isTimeMachineMode after) = true →
     Js.truthy (Article.isTimeMachineMode before) = true).
Proof.
  unfold Shell.handlePinSubmit.
  destruct (String.eqb (Shell.pinInput s) "0000");
    [|destruct (String.eqb (Shell.pinInput s) "6666");
      [|destruct (String.eqb (Shell.pinInput s) "9453")]];
    simpl; repeat split; eauto; done.
Qed.

(** X15. What each code does to the next simulation. 0000: the next
    instructions are the normal-mode block alone and both era contexts are
    those of the present day, whatever the article was. 6666: the crazy
    block is among the next instructions, the emergency and fake-news
    blocks are among them exactly when they were before, and the era
    contexts are unchanged. 9453: the emergency block is the first of the
    next instructions and the era contexts are unchanged. Any other code:
    the article is unchanged. *)
Theorem pin_codes_and_the_next_simulation (currentYear : Z)
    (parseInt : string → Js.number) (s : Shell.t) :
  let before := App.article (Shell.app s) in
  let after := App.article (Shell.app (Shell.handlePinSubmit s)) in
  (Shell.pinInput s = "0000" →
     modeInstructions after = [mode_normal]
     ∧ getEraContext currentYear parseInt after = era_now
     ∧ eraContextFull currentYear parseInt after = eraFull_now)
  ∧ (Shell.pinInput s = "6666" →
       mode_crazy ∈ modeInstructions after
       ∧ (mode_emergency ∈ modeInstructions after ↔ mode_emergency ∈ modeInstructions before)
       ∧ (mode_fakeNews ∈ modeInstructions after ↔ mode_fakeNews ∈ modeInstructions before)
       ∧ getEraContext currentYear parseInt after = getEraContext currentYear parseInt before
       ∧ eraContextFull currentYear parseInt after =
           eraContextFull currentYear parseInt before)
  ∧ (Shell.pinInput s = "9453" →
       head (modeInstructions after) = Some mode_emergency
       ∧ getEraContext currentYear parseInt after = getEraContext currentYear parseInt before
       ∧ eraContextFull currentYear parseInt after =
           eraContextFull currentYear parseInt before)
  ∧ (Shell.pinInput s ≠ "0000" → Shell.pinInput s ≠ "6666" →
     Shell.pinInput s ≠ "9453" → after = before).
Proof.
  intros before after. unfold after, Shell.handlePinSubmit.
  destruct mode_blocks_apart as (Hec & Hef & Hen & Hcf & Hcn & Hfn).
  repeat match goal with |- _ ∧ _ => split end.
  - intros ->. simpl. done.
  - intros ->. simpl. fold before. rewrite !modeInstructions_of_flags. simpl.
    destruct (Js.truthy (Article.isEmergencyMode before)),
      (Js.truthy (Article.isFakeNews before)),
      (Js.truthy (Article.isCrazyMode before)); simpl;
      rewrite ?elem_of_cons, ?elem_of_nil; repeat split; try tauto;
      intros; intuition congruence.
  - intros ->. simpl. fold before. rewrite modeInstructions_of_flags. simpl.
    repeat split.
  - intros H0%String.eqb_neq H6%String.eqb_neq H9%String.eqb_neq.
    rewrite H0, H6, H9. done.
Qed.

Lemma pin_codes_and_the_next_simulation_witness :
  modeInstructions
    (App.article (Shell.app (Shell.handlePinSubmit (Sample.shell Sample.wild "0000")))) =
    [mode_normal]
  ∧ mode_crazy ∈
      modeInstructions
        (App.article (Shell.app (Shell.handlePinSubmit
                                   (Sample.shell Fixture.plain "6666"))))
  ∧ head (modeInstructions
            (App.article (Shell.app (Shell.handlePinSubmit
                                       (Sample.shell Fixture.plain "9453"))))) =
      Some mode_emergency
  ∧ App.article (Shell.app (Shell.handlePinSubmit (Sample.shell Sample.wild "1234"))) =
      Sample.wild.
Proof.
  refine (conj _ (conj _ (conj _ _))).
  - apply (proj1 (pin_codes_and_the_next_simulation Fixture.currentYear Fixture.parseInt
                    (Sample.shell Sample.wild "0000"))).
    reflexivity.
  - apply (proj1 (proj2 (pin_codes_and_the_next_simulation Fixture.currentYear
                           Fixture.parseInt (Sample.shell Fixture.plain "6666")))).
    reflexivity.
  - apply (proj1 (proj2 (proj2 (pin_codes_and_the_next_simulation Fixture.currentYear
                                  Fixture.parseInt (Sample.shell Fixture.plain "9453"))))).
    reflexivity.
  - apply (proj2 (proj2 (proj2 (pin_codes_and_the_next_simulation Fixture.currentYear
                                  Fixture.parseInt (Sample.shell Sample.wild "1234")))));
      discriminate.
Defined.

Section ResetAndFollowUp.

Variable loadedAt : string.
Variable loadedYear : Z.

Local Abbreviation handleReset := (Shell.handleReset loadedAt loadedYear).
Local Abbreviation handleFollowUp := (Shell.handleFollowUp loadedAt loadedYear).



End ResetAndFollowUp.


Section PublishAndReload.

Variable currentYear : Z.
Variable parseInt : string → Js.number.
Variable generateContent :
  GenerateContentParameters → nat → Js.Error + GenerateContentResponse.
Variable JSON_parse_result : string → Js.Error + SimulationResult.
Variable loadedAt : string.
Variable loadedYear : Z.

(** X18. What was published can be shown again. After [handlePublish], the
    first entry of the history is the published article with its result;
    and after a reset or a follow-up, loading that entry brings back the
    state [handlePublish] had left: the same article, result, view, history
    and alerts. *)
Theorem published_entry_reloads (s : Shell.t) (w : World) :
  ∃ app' item w',
    handlePublish currentYear parseInt generateContent JSON_parse_result
      (Shell.app s) w = (inr app', w')
    ∧ head (App.history app') = Some item
    ∧ fst item = App.article (Shell.app s)
    ∧ ∀ now s', Shell.app s' = app' →
        Shell.app (Shell.handleLoadHistory item
                     (Shell.handleReset loadedAt loadedYear now s')) = app'
        ∧ Shell.app (Shell.handleLoadHistory item
                       (Shell.handleFollowUp loadedAt loadedYear now s')) = app'
        ∧ Shell.showHistory
            (Shell.handleLoadHistory item
               (Shell.handleReset loadedAt loadedYear now s')) = false.
Proof.
  destruct (analyzeArticle_fulfils currentYear parseInt generateContent
              JSON_parse_result (App.article (Shell.app s)) w) as (r & w' & Hr).
  eexists _, (App.article (Shell.app s), r), w'.
  rewrite handlePublish_unfold, Hr. split; [done|]. split; [done|]. split; [done|].
  intros now s' Hs'.
  unfold Shell.handleLoadHistory, Shell.handleReset, Shell.handleFollowUp, Shell.withApp.
  simpl. rewrite Hs'. repeat split.
Qed.

End PublishAndReload.

(** ** The comment panel: what replying keeps *)

Lemma withMoreReplies_nil (c : Comment.t) : Dashboard.withMoreReplies c [] = c.
Proof. destruct c. unfold Dashboard.withMoreReplies. simpl. by rewrite app_nil_r. Qed.

Lemma withMoreReplies_app (c : Comment.t) (m1 m2 : list Reply.t) :
  Dashboard.withMoreReplies (Dashboard.withMoreReplies c m1) m2 =
  Dashboard.withMoreReplies c (m1 ++ m2).
Proof. unfold Dashboard.withMoreReplies. simpl. by rewrite app_assoc. Qed.

(** [grown l l']: the comments of [l'] are those of [l], each with replies
    appended (possibly none). *)
Local Abbreviation grown :=
  (Forall2 (λ c c' : Comment.t, ∃ more, c' = Dashboard.withMoreReplies c more)).

Lemma grown_refl (l : list Comment.t) : grown l l.
Proof.
  induction l as [|c l IH]; constructor; [|done].
  exists []. by rewrite withMoreReplies_nil.
Qed.

Lemma grown_trans (l1 l2 l3 : list Comment.t) : grown l1 l2 → grown l2 l3 → grown l1 l3.
Proof.
  intros H12. revert l3. induction H12 as [|c1 c2 l1 l2 [m1 ->] _ IH]; intros l3 H23.
  - by inversion H23.
  - inversion H23 as [|? c3 ? l3' [m2 ->] Hrest]; subst. constructor; [|by apply IH].
    exists (m1 ++ m2). apply withMoreReplies_app.
Qed.

Lemma grown_same_length (l l' : list Comment.t) : grown l l' → length l = length l'.
Proof. induction 1; simpl; congruence. Qed.

Lemma grown_platforms (l l' : list Comment.t) :
  grown l l' → Comment.platform <$> l' = Comment.platform <$> l.
Proof. induction 1 as [|c c' l l' [m ->] _ IH]; [done|]. by rewrite !fmap_cons, IH. Qed.

Lemma grown_sentiments (l l' : list Comment.t) (x : Sentiment) :
  grown l l' →
  length (filter (λ c, Comment.sentiment c = x) l') =
  length (filter (λ c, Comment.sentiment c = x) l).
Proof.
  induction 1 as [|c c' l l' [m ->] _ IH]; [done|].
  rewrite !filter_cons. simpl.
  destruct (decide (Comment.sentiment c = x)); simpl; by rewrite IH.
Qed.

Lemma addReplies_grown (idx : nat) (more : list Reply.t) (prev : list Comment.t) :
  grown prev (Dashboard.addReplies idx more prev).
Proof.
  apply Forall2_same_length_lookup. split.
  - unfold Dashboard.addReplies. by rewrite length_imap.
  - intros i c c' Hc. unfold Dashboard.addReplies.
    rewrite list_lookup_imap, Hc. simpl. intros [= <-].
    destruct (i =? idx)%nat; [by exists more|].
    exists []. by rewrite withMoreReplies_nil.
Qed.

Section Panel.

Variable trim : string → string.
Variable article : Article.t.

Local Abbreviation step := (Dashboard.step trim article).
Local Abbreviation run := (Dashboard.run trim article).

Lemma step_grown (s : Dashboard.Session) (a : Dashboard.Action) :
  grown (Dashboard.localComments (Dashboard.view s))
        (Dashboard.localComments (Dashboard.view (step s a))).
Proof.
  destruct a as [platform|idx|text| |idx|k settled]; unfold Dashboard.step; simpl.
  - apply grown_refl.
  - destruct (idx <? _)%nat; apply grown_refl.
  - destruct (Dashboard.replyingTo _); apply grown_refl.
  - destruct (Dashboard.replyingTo _); apply grown_refl.
  - destruct (Dashboard.filteredComments _ !! idx) as [comment|]; [|apply grown_refl].
    destruct (bool_decide _); [|apply grown_refl].
    unfold Dashboard.handleSubmitReply.
    destruct (negb _); simpl; [apply grown_refl | apply addReplies_grown].
  - destruct (Dashboard.inFlight s !! k) as [call|]; [|apply grown_refl].
    unfold Dashboard.handleSubmitReply_resume.
    destruct settled as [e|aiReplies]; simpl; [apply grown_refl|].
    destruct (0 <? length aiReplies)%nat; simpl;
      [apply addReplies_grown | apply grown_refl].
Qed.

Lemma run_grown (s : Dashboard.Session) (actions : list Dashboard.Action) :
  grown (Dashboard.localComments (Dashboard.view s))
        (Dashboard.localComments (Dashboard.view (run s actions))).
Proof.
  revert s. induction actions as [|a actions IH]; intros s; [apply grown_refl|].
  unfold Dashboard.run. simpl.
  eapply grown_trans; [apply step_grown | apply IH].
Qed.

(** X19. The comment list is append-only. Whatever the reader does in the
    panel (select platforms, open, type, cancel and submit replies) and
    however the calls in flight settle, the panel keeps the same number of
    comments in the same order, and each comment is what it was with
    replies added at the end of its replies: no comment and no reply is
    removed, reordered or rewritten. *)
Theorem comments_only_grow (s : Dashboard.Session) (actions : list Dashboard.Action) :
  length (Dashboard.localComments (Dashboard.view (run s actions))) =
    length (Dashboard.localComments (Dashboard.view s))
  ∧ ∀ i c,
      Dashboard.localComments (Dashboard.view s) !! i = Some c →
      ∃ more,
        Dashboard.localComments (Dashboard.view (run s actions)) !! i =
        Some (Dashboard.withMoreReplies c more).
Proof.
  pose proof (run_grown s actions) as Hgrown. split.
  - symmetry. by apply grown_same_length.
  - intros i c Hc.
    destruct (Forall2_lookup_l _ _ _ _ _ Hgrown Hc) as (c' & Hc' & more & ->).
    by exists more.
Qed.

End Panel.

Lemma comments_only_grow_witness :
  ∃ more,
    Dashboard.localComments
      (Dashboard.view
         (Dashboard.run Fixture.trim Fixture.plain Fixture.opened
            [Dashboard.ClickReply 1; Dashboard.TypeReply "thanks";
             Dashboard.Submit 1;
             Dashboard.Settle 0 (inr [Fixture.reaction "thanks"])])) !! 1 =
    Some (Dashboard.withMoreReplies Fixture.onPortal more).
Proof.
  apply (proj2 (comments_only_grow Fixture.trim Fixture.plain Fixture.opened
                  [Dashboard.ClickReply 1; Dashboard.TypeReply "thanks";
                   Dashboard.Submit 1;
                   Dashboard.Settle 0 (inr [Fixture.reaction "thanks"])]) 1).
  reflexivity.
Defined.

(** ** The comment panel: the sentiment bars and the platform buttons *)

Lemma sentiment_counts (l : list Comment.t) :
  length (filter (λ c, Comment.sentiment c = positive) l)
  + length (filter (λ c, Comment.sentiment c = neutral) l)
  + length (filter (λ c, Comment.sentiment c = negative) l) = length l.
Proof.
  induction l as [|c l IH]; [done|]. rewrite !filter_cons.
  destruct (Comment.sentiment c) eqn:Hs;
    repeat (destruct (decide _) as [?|?]; try congruence); simpl; lia.
Qed.

(** X20. The three sentiment bars count every comment exactly once: their
    values add up to the number of comments. And replying does not move
    them: after any run of the panel the bars and the platform buttons are
    what they were before it. *)
Theorem bars_and_buttons_are_stable (trim : string → string) (article : Article.t)
    (s : Dashboard.Session) (actions : list Dashboard.Action) :
  list_sum (Bar.value <$> sentimentData (Dashboard.localComments (Dashboard.view s))) =
    length (Dashboard.localComments (Dashboard.view s))
  ∧ sentimentData
      (Dashboard.localComments (Dashboard.view (Dashboard.run trim article s actions))) =
    sentimentData (Dashboard.localComments (Dashboard.view s))
  ∧ availablePlatforms
      (Dashboard.localComments (Dashboard.view (Dashboard.run trim article s actions))) =
    availablePlatforms (Dashboard.localComments (Dashboard.view s)).
Proof.
  pose proof (run_grown trim article s actions) as Hgrown.
  split; [|split].
  - unfold sentimentData. simpl.
    pose proof (sentiment_counts (Dashboard.localComments (Dashboard.view s))). lia.
  - unfold sentimentData. by rewrite !(grown_sentiments _ _ _ Hgrown).
  - unfold availablePlatforms. by rewrite (grown_platforms _ _ Hgrown).
Qed.






(** ** The comment panel: a reply from submission to settlement *)

Section ReplyLifecycle.

Variable trim : string → string.
Variable article : Article.t.

Local Abbreviation step := (Dashboard.step trim article).

(** X23. A reply that is blank once trimmed is not sent: submitting it
    changes nothing at all. No reply is added, no call is issued, the form
    stays open with its text, and the pending mark is not set. *)
Theorem blank_reply_is_ignored (s : Dashboard.Session) (idx : nat) :
  Js.nonempty (trim (Dashboard.replyText (Dashboard.view s))) = false →
  step s (Dashboard.Submit idx) = s.
Proof.
  intros Hblank. unfold Dashboard.step.
  destruct (Dashboard.filteredComments (Dashboard.view s) !! idx) as [comment|]; [|done].
  destruct (bool_decide _); [|done].
  rewrite handleSubmitReply_blank by done. by destruct s.
Qed.

(** X24. A reply from submission to settlement, with no platform selected.
    The reader submits a non-blank reply in the open form of displayed
    comment [idx], and the call this issues settles (nothing else happens
    in between). Then the comment has, after the replies it had, the reply
    of the reporter followed by the generated replies in the order they
    came, or the reply of the reporter alone when the call returned no
    reply or failed; the other comments are as before, the pending mark is
    cleared and the calls in flight are those of before. *)
Theorem reply_then_reactions (s : Dashboard.Session) (idx : nat) (comment : Comment.t)
    (settled : Js.Error + list Reply.t) :
  Dashboard.selectedPlatform (Dashboard.view s) = "ALL" →
  Dashboard.filteredComments (Dashboard.view s) !! idx = Some comment →
  Dashboard.replyingTo (Dashboard.view s) = Some idx →
  Js.nonempty (trim (Dashboard.replyText (Dashboard.view s))) = true →
  let reporterReply :=
    {| Reply.username := Js.or_str (Article.author article) "기자";
       Reply.content := Dashboard.replyText (Dashboard.view s);
       Reply.likes := 0 |} in
  let after :=
    step (step s (Dashboard.Submit idx))
         (Dashboard.Settle (length (Dashboard.inFlight s)) settled) in
  Dashboard.localComments (Dashboard.view after) !! idx =
    Some (Dashboard.withMoreReplies comment
            (reporterReply :: match settled with
                              | inr aiReplies => aiReplies
                              | inl _ => []
                              end))
  ∧ (∀ j, j ≠ idx →
       Dashboard.localComments (Dashboard.view after) !! j =
       Dashboard.localComments (Dashboard.view s) !! j)
  ∧ Dashboard.generatingReplyId (Dashboard.view after) = None
  ∧ Dashboard.inFlight after = Dashboard.inFlight s.
Proof.
  intros Hall Hidx Hopen Hne reporterReply after.
  assert (Hlocal : Dashboard.localComments (Dashboard.view s) !! idx = Some comment).
  { unfold Dashboard.filteredComments in Hidx. by rewrite Hall in Hidx. }
  set (call := {| Dashboard.targetCommentIdx := idx;
                  Dashboard.targetComment := comment;
                  Dashboard.reporterReplyText :=
                    Dashboard.replyText (Dashboard.view s) |}).
  assert (Hsubmit : step s (Dashboard.Submit idx) =
    {| Dashboard.view :=
         fst (Dashboard.handleSubmitReply trim article (Dashboard.view s) idx comment);
       Dashboard.inFlight := Dashboard.inFlight s ++ [call] |}).
  { unfold Dashboard.step.
    by rewrite Hidx, bool_decide_eq_true_2, handleSubmitReply_sent by done. }
  assert (Hsettle : after =
    {| Dashboard.view :=
         Dashboard.handleSubmitReply_resume
           (fst (Dashboard.handleSubmitReply trim article (Dashboard.view s) idx comment))
           call settled;
       Dashboard.inFlight := Dashboard.inFlight s |}).
  { unfold after. rewrite Hsubmit. unfold Dashboard.step.
    cbn [Dashboard.inFlight Dashboard.view].
    rewrite list_lookup_middle by done.
    by rewrite delete_middle, app_nil_r. }
  rewrite Hsettle. clear Hsettle Hsubmit after.
  rewrite handleSubmitReply_sent by done. fold reporterReply.
  unfold Dashboard.handleSubmitReply_resume.
  cbn [fst Dashboard.view Dashboard.inFlight Dashboard.targetCommentIdx call].
  destruct settled as [e|aiReplies]; simpl.
  - repeat split.
    + rewrite addReplies_lookup, decide_True by done. by rewrite Hlocal.
    + intros j Hj. by rewrite addReplies_lookup, decide_False.
  - destruct (0 <? length aiReplies)%nat eqn:Hlen; simpl.
    + repeat split.
      * rewrite !addReplies_lookup, !decide_True by done. rewrite Hlocal.
        cbn [fmap option_fmap option_map]. by rewrite withMoreReplies_app.
      * intros j Hj. by rewrite !addReplies_lookup, !decide_False.
    + apply Nat.ltb_ge in Hlen. destruct aiReplies; [|simpl in Hlen; lia].
      repeat split.
      * rewrite addReplies_lookup, decide_True by done. by rewrite Hlocal.
      * intros j Hj. by rewrite addReplies_lookup, decide_False.
Qed.

End ReplyLifecycle.

Lemma blank_reply_is_ignored_witness :
  Dashboard.step Fixture.trim Fixture.plain
    (Fixture.play [Dashboard.ClickReply 0; Dashboard.TypeReply "   "])
    (Dashboard.Submit 0) =
  Fixture.play [Dashboard.ClickReply 0; Dashboard.TypeReply "   "].
Proof.
  apply (blank_reply_is_ignored Fixture.trim Fixture.plain
           (Fixture.play [Dashboard.ClickReply 0; Dashboard.TypeReply "   "]) 0).
  reflexivity.
Defined.

Lemma reply_then_reactions_witness :
  Dashboard.localComments
    (Dashboard.view
       (Dashboard.step Fixture.trim Fixture.plain
          (Dashboard.step Fixture.trim Fixture.plain
             (Fixture.play [Dashboard.ClickReply 1; Dashboard.TypeReply "thanks"])
             (Dashboard.Submit 1))
          (Dashboard.Settle 0 (inr [Fixture.reaction "thanks"])))) !! 1 =
  Some (Dashboard.withMoreReplies Fixture.onPortal
          [Fixture.byKim "thanks"; Fixture.reaction "thanks"]).
Proof.
  apply (reply_then_reactions Fixture.trim Fixture.plain
           (Fixture.play [Dashboard.ClickReply 1; Dashboard.TypeReply "thanks"])
           1 Fixture.onPortal (inr [Fixture.reaction "thanks"]));
    reflexivity.
Defined.

Lemma published_entry_reloads_witness :
  ∃ app' item w',
    handlePublish Fixture.currentYear Fixture.parseInt Sample.answering
      Sample.acceptResult (Shell.app (Sample.shell Sample.wild EmptyString)) fresh =
    (inr app', w')
    ∧ head (App.history app') = Some item
    ∧ fst item = Sample.wild
    ∧ Shell.app
        (Shell.handleLoadHistory item
           (Shell.handleReset Sample.loadedAt Fixture.currentYear Sample.later
              (Shell.withApp (λ _, app') (Sample.shell Sample.wild EmptyString)))) = app'.
Proof.
  destruct (published_entry_reloads Fixture.currentYear Fixture.parseInt
              Sample.answering Sample.acceptResult Sample.loadedAt Fixture.currentYear
              (Sample.shell Sample.wild EmptyString) fresh)
    as (app' & item & w' & Hpub & Hhead & Hitem & Hload).
  exists app', item, w'. repeat split; try done.
  apply (Hload Sample.later
           (Shell.withApp (λ _, app') (Sample.shell Sample.wild EmptyString))).
  reflexivity.
Defined.

Lemma handlePinSubmit_frame_witness :
  Js.truthy (Article.isFakeNews
               (App.article (Shell.app (Shell.handlePinSubmit
                                          (Sample.shell Sample.wild "6666"))))) = true
  ∧ Js.truthy (Article.isFakeNews
                 (App.article (Shell.app (Sample.shell Sample.wild "6666")))) = true.
Proof.
  split; [reflexivity|].
  destruct (handlePinSubmit_frame (Sample.shell Sample.wild "6666"))
    as (_ & _ & _ & _ & _ & _ & _ & Hfake & _).
  apply Hfake. reflexivity.
Defined.
